(** * colocgraph: batch plotting of tab-separated intensity profiles

    A shallow embedding of [colocgraph.py] (file discovery, table loading,
    chart rendering, the batch driver and the command-line entry point)
    together with the properties of the program that its specification
    states.

    Conventions of the embedding.
    - A Python [str] is a Rocq [string]: a sequence of 8-bit code points.
      Input files are decoded as ISO-8859-1, so one byte is one character;
      in that range the only characters [int()] accepts are ['0'..'9'].
    - Python integers are [Z]; list subscripts follow Python's rule for
      negative indices. Figure sizes are integers, as the command line
      reads them; the defaults [10.0] and [6.0] of [main] are whole.
    - The calls of the plotting backend ([matplotlib.pyplot]) and of
      [print] are a log of events; a computation yields the events it
      emitted and either a value or the exception that stopped it. What the
      backend does at a call, go through or raise, is a parameter.
    - The file system is read-only input: a directory tree per root path
      (what [os.walk] sees) and a read result per path (what opening the
      file gives). *)

From Stdlib Require Import String Ascii List ZArith Lia Bool Arith.
From Stdlib Require Import DecimalString.
From Stdlib Require DecimalNat.
Import ListNotations.

Set Warnings "-register-all".

Local Open Scope string_scope.
Local Open Scope list_scope.

(* ------------------------------------------------------------------ *)
(** ** Python primitives *)

Module Py.

(** Exceptions the program can meet. [ParserError] and [EmptyDataError]
    are pandas' own, [OSError] stands for any failure to read or write a
    file other than its absence, [LibraryError] for any other exception
    of a library, by its name. *)
Inductive Exc : Type :=
| ValueError
| IndexError
| AttributeError
| FileNotFoundError
| ParserError
| EmptyDataError
| OSError
| OverflowError
| LibraryError (name : string).

(** [s.endswith(suffix)] *)
Definition endswith (s suffix : string) : bool :=
  (String.length suffix <=? String.length s)%nat
  && String.eqb
       (substring (String.length s - String.length suffix)
                  (String.length suffix) s)
       suffix.

(** [s.startswith(p)] *)
Definition startswith (s p : string) : bool := String.prefix p s.

Definition sep : ascii := "/"%char.

(** [os.path.join(a, b)] of posixpath, for two components. *)
Definition os_path_join (a b : string) : string :=
  if startswith b (String sep EmptyString) then b
  else if (String.eqb a "" || endswith a (String sep EmptyString))%bool
       then a ++ b
       else a ++ String sep b.

Fixpoint has_sep (p : string) : bool :=
  match p with
  | EmptyString => false
  | String c r => (Ascii.eqb c sep || has_sep r)%bool
  end.

(** [os.path.basename(p)]: what follows the last separator. *)
Fixpoint os_path_basename (p : string) : string :=
  match p with
  | EmptyString => EmptyString
  | String c r =>
      if has_sep r then os_path_basename r
      else if Ascii.eqb c sep then r else p
  end.

(** [l[i]]: [None] stands for the [IndexError] of an index out of range. *)
Definition index {A : Type} (l : list A) (i : Z) : option A :=
  let n := Z.of_nat (List.length l) in
  if (0 <=? i)%Z then nth_error l (Z.to_nat i)
  else if (- n <=? i)%Z then nth_error l (Z.to_nat (n + i))
  else None.

Definition is_digit (c : ascii) : bool :=
  let n := nat_of_ascii c in ((48 <=? n) && (n <=? 57))%nat.

(** [int(c)] for a one-character string [c]; [None] is [ValueError]. *)
Definition int_of_char (c : ascii) : option Z :=
  if is_digit c then Some (Z.of_nat (nat_of_ascii c - 48)) else None.

End Py.

(* ------------------------------------------------------------------ *)
(** ** Effects: an event log with exceptions *)

(** A pandas [Series]: a column with its name. A cell is [None] when the
    value is missing (NaN). *)
Definition cell : Type := option string.

Record Series : Type := mkSeries {
  series_name : string;
  series_values : list cell
}.

Inductive Message : Type :=
| MsgFileNotFound (file_path : string)
| MsgLoadError (e : Py.Exc).

Inductive Event : Type :=
| EvPrint (m : Message)
| EvRcParams (font_size : Z)
| EvFigure (width height : Z)
| EvPlot (x y : Series) (color label : string)
| EvXLabel (l : option string)
| EvYLabel (l : option string)
| EvLegend
| EvTightLayout
| EvSavefig (fname format : string)
| EvClose.

Inductive Result (A : Type) : Type :=
| Ok (a : A)
| Raise (e : Py.Exc).
Arguments Ok {A} a.
Arguments Raise {A} e.

Module Eff.

(** The events emitted, in order, and how the computation ended. *)
Definition M (A : Type) : Type := (list Event * Result A)%type.

Definition ret {A} (a : A) : M A := ([], Ok a).

Definition bind {A B} (m : M A) (f : A -> M B) : M B :=
  match m with
  | (l, Ok a) => let (l', r) := f a in (l ++ l', r)
  | (l, Raise e) => (l, Raise e)
  end.

Definition emit (e : Event) : M unit := ([e], Ok tt).

Definition raise {A} (e : Py.Exc) : M A := ([], Raise e).

(** An optional value, raising [e] when it is absent. *)
Definition or_raise {A} (o : option A) (e : Py.Exc) : M A :=
  match o with
  | Some a => ret a
  | None => raise e
  end.

(** [for x in xs: body(x)] *)
Fixpoint for_each {A} (xs : list A) (body : A -> M unit) : M unit :=
  match xs with
  | [] => ret tt
  | x :: r => bind (body x) (fun _ => for_each r body)
  end.

(** [[f(x) for x in xs]] *)
Fixpoint comprehension {A B} (f : A -> M B) (xs : list A) : M (list B) :=
  match xs with
  | [] => ret []
  | x :: r =>
      bind (f x) (fun y =>
      bind (comprehension f r) (fun ys => ret (y :: ys)))
  end.

Definition log {A} (m : M A) : list Event := fst m.
Definition outcome {A} (m : M A) : Result A := snd m.

End Eff.

Declare Scope eff_scope.
Delimit Scope eff_scope with eff.
Notation "x <- m ;; k" := (Eff.bind m (fun x => k))
  (at level 61, m at next level, right associativity) : eff_scope.
Notation "m ;;; k" := (Eff.bind m (fun _ => k))
  (at level 61, right associativity) : eff_scope.

(* ------------------------------------------------------------------ *)
(** ** The file system seen by the program *)

(** A directory as [os.walk] lists it: the names of its files and its
    sub-directories, each in listing order. A directory that cannot be
    listed (missing, permission denied) is [Unreadable]: [os.walk] is
    called with its default [onerror=None], which drops the error and
    yields nothing for it. *)
Inductive DirTree : Type :=
| Unreadable
| Dir (files : list string) (subdirs : list (string * DirTree)).

(** Opening and reading a file gives its text (decoded as ISO-8859-1, which
    cannot fail) or raises: [FileNotFoundError] for a missing file,
    another exception otherwise. *)
Record FileSystem : Type := mkFS {
  fs_tree : string -> DirTree;
  fs_read : string -> Result string
}.

(** [os.walk(top)], top-down: the directory itself, then each
    sub-directory in turn. Only the [root] and [files] components are
    kept, the caller ignores the other. *)
Fixpoint os_walk (top : string) (t : DirTree) : list (string * list string) :=
  match t with
  | Unreadable => []
  | Dir files subdirs =>
      (top, files) ::
      (fix walk_subdirs (l : list (string * DirTree)) :=
         match l with
         | [] => []
         | (name, sub) :: r =>
             os_walk (Py.os_path_join top name) sub ++ walk_subdirs r
         end) subdirs
  end.

(* ------------------------------------------------------------------ *)
(** ** File discovery: [get_txt_files] *)

(** The inner loop: [for file in files: if file.endswith('.txt'):
    txt_files.append(os.path.join(root, file))]. *)
Fixpoint scan_files (root : string) (files : list string)
                    (txt_files : list string) : list string :=
  match files with
  | [] => txt_files
  | file :: r =>
      if Py.endswith file ".txt"
      then scan_files root r (txt_files ++ [Py.os_path_join root file])
      else scan_files root r txt_files
  end.

(** The outer loop over what [os.walk] yields. *)
Fixpoint scan_walk (w : list (string * list string))
                   (txt_files : list string) : list string :=
  match w with
  | [] => txt_files
  | (root, files) :: r => scan_walk r (scan_files root files txt_files)
  end.

(** [get_txt_files(dir)]. The walk never raises (listing errors are
    dropped by [os.walk] itself), so the [except] branch is not reached
    and nothing is printed. *)
Definition get_txt_files (fs : FileSystem) (dir : string) : list string :=
  scan_walk (os_walk dir (fs_tree fs dir)) [].

(* ------------------------------------------------------------------ *)
(** ** Table loading: [load_txt] *)

(** A [pd.DataFrame]: the header names and the rows, in file order. The
    row labels (the index) play no part in the program and are left out. *)
Record DataFrame : Type := mkDataFrame {
  columns : list string;
  rows : list (list cell)
}.

Module Pandas.

Definition tab : ascii := ascii_of_nat 9.
Definition lf : ascii := ascii_of_nat 10.
Definition cr : ascii := ascii_of_nat 13.

(** [s.split(d)] for a one-character delimiter. *)
Fixpoint split (d : ascii) (s : string) : list string :=
  match s with
  | EmptyString => [EmptyString]
  | String c r =>
      if Ascii.eqb c d then EmptyString :: split d r
      else match split d r with
           | h :: t => String c h :: t
           | [] => [String c EmptyString]
           end
  end.

(** The lines of a text as the tokenizer cuts them: a line ends at a line
    feed, at a carriage return, or at a carriage return followed by a line
    feed. [after_cr] tells that the character before was a carriage
    return. *)
Fixpoint lines_from (after_cr : bool) (s : string) : list string :=
  match s with
  | EmptyString => [EmptyString]
  | String c r =>
      if Ascii.eqb c lf then
        if after_cr then lines_from false r
        else EmptyString :: lines_from false r
      else if Ascii.eqb c cr then EmptyString :: lines_from true r
      else match lines_from false r with
           | h :: t => String c h :: t
           | [] => [String c EmptyString]
           end
  end.

Definition split_lines (text : string) : list string :=
  lines_from false text.

(** The field texts [read_csv] reads as a missing value
    (its default [na_values], with [keep_default_na=True]). *)
Definition na_values : list string :=
  [ ""; "#N/A"; "#N/A N/A"; "#NA"; "-1.#IND"; "-1.#QNAN"; "-NaN"; "-nan";
    "1.#IND"; "1.#QNAN"; "<NA>"; "N/A"; "NA"; "NULL"; "NaN"; "None";
    "n/a"; "nan"; "null" ].

Definition is_na (field : string) : bool :=
  existsb (String.eqb field) na_values.

Definition to_cell (field : string) : cell :=
  if is_na field then None else Some field.

(** A row shorter than expected is filled up with missing values. *)
Definition pad (n : nat) (r : list cell) : list cell :=
  r ++ repeat None (n - List.length r).

(** A blank line is empty or made of spaces only: the tokenizer passes
    over it ([skip_blank_lines=True]). *)
Definition nonblank (line : string) : bool :=
  negb (forallb (Ascii.eqb " "%char) (list_ascii_of_string line)).

(** *** Naming the columns

    An empty header field at position [i] is named [Unnamed: i]; a name
    met again is given a suffix [.1], [.2], ... that no column has yet
    (the loop of the parser's [_get_header], named columns first). *)

(** [str(n)] *)
Definition str_of_nat (n : nat) : string :=
  NilZero.string_of_uint (Nat.to_uint n).

(** [counts.get(col, 0)] *)
Definition count_of (counts : list (string * nat)) (col : string) : nat :=
  match find (fun kv => String.eqb (fst kv) col) counts with
  | Some kv => snd kv
  | None => 0
  end.

(** [counts[col] = n] *)
Definition set_count (counts : list (string * nat)) (col : string) (n : nat)
  : list (string * nat) :=
  (col, n) :: filter (fun kv => negb (String.eqb (fst kv) col)) counts.

(** [l[i] = a] *)
Fixpoint set_nth {A} (i : nat) (a : A) (l : list A) : list A :=
  match l, i with
  | [], _ => []
  | _ :: r, O => a :: r
  | x :: r, S j => x :: set_nth j a r
  end.

Definition mem (col : string) (l : list string) : bool :=
  existsb (String.eqb col) l.

(** [while cur_count > 0: ...], with the number of rounds bounded by
    [fuel]. *)
Fixpoint mangle (fuel : nat) (header : list string) (old_col col : string)
                (cur_count : nat) (counts : list (string * nat))
  : string * nat * list (string * nat) :=
  match cur_count, fuel with
  | O, _ => (col, cur_count, counts)
  | _, O => (col, cur_count, counts)
  | S _, S fuel' =>
      let counts' := set_count counts old_col (cur_count + 1) in
      let col' := (old_col ++ "." ++ str_of_nat cur_count)%string in
      if mem col' header
      then mangle fuel' header old_col col' (cur_count + 1) counts'
      else mangle fuel' header old_col col' (count_of counts' col') counts'
  end.

(** One round of [for i in col_loop_order]. *)
Definition dedup_step (fuel : nat) (st : list string * list (string * nat))
                      (i : nat) : list string * list (string * nat) :=
  let (header, counts) := st in
  let col := nth i header "" in
  match mangle fuel header col col (count_of counts col) counts with
  | (col', cur_count, counts') =>
      (set_nth i col' header, set_count counts' col' (cur_count + 1))
  end.

Definition rename_columns (fuel : nat) (fields : list string)
  : list string :=
  let idx := seq 0 (List.length fields) in
  let unnamed i := String.eqb (nth i fields "") "" in
  let header :=
    map (fun i => if unnamed i
                  then ("Unnamed: " ++ str_of_nat i)%string
                  else nth i fields "") idx in
  let col_loop_order :=
    filter (fun i => negb (unnamed i)) idx ++ filter unnamed idx in
  fst (fold_left (dedup_step fuel) col_loop_order (header, [])).

(** The inner loop ends within two rounds more than there are columns
    (lemma [rename_columns_fuel] below). *)
Definition name_columns (fields : list string) : list string :=
  rename_columns (List.length fields + 2) fields.

(** [pd.read_csv(text, sep='\t', skiprows=skiprows)], for a text without
    quoted field (no field begins with a quote character).
    The first [skiprows] lines are dropped, blank lines are passed over,
    the next line names the columns and the others are the rows. Nothing
    left to name the columns is an [EmptyDataError]. A first row wider
    than the header makes its leading fields row labels, which are left
    out; every row is filled up to the width so reached, and a later row
    wider than that is a [ParserError]. *)
Definition read_csv (text : string) (skiprows : nat) : Result DataFrame :=
  match filter nonblank (skipn skiprows (split_lines text)) with
  | [] => Raise Py.EmptyDataError
  | header :: data =>
      let names := name_columns (split tab header) in
      let n := List.length names in
      let records := map (split tab) data in
      let m := match records with
               | [] => n
               | first :: _ => Nat.max n (List.length first)
               end in
      if existsb (fun r => (m <? List.length r)%nat) records
      then Raise Py.ParserError
      else Ok {| columns := names;
                 rows := map (fun r => skipn (m - n) (pad m (map to_cell r)))
                             records |}
  end.

Definition notna (c : cell) : bool :=
  match c with Some _ => true | None => false end.

(** [df.dropna()]: the rows without a missing value. *)
Definition dropna (df : DataFrame) : DataFrame :=
  {| columns := columns df;
     rows := filter (forallb notna) (rows df) |}.

(** [df.iloc[:, i]] *)
Definition iloc_col (df : DataFrame) (i : Z) : option Series :=
  match Py.index (columns df) i with
  | Some name =>
      Some {| series_name := name;
              series_values :=
                map (fun r => match Py.index r i with
                              | Some c => c
                              | None => None
                              end) (rows df) |}
  | None => None
  end.

End Pandas.

(** [pd.read_csv(file_path, sep='\t', skiprows=1, encoding='ISO-8859-1')] *)
Definition pd_read_csv (fs : FileSystem) (file_path : string)
  : Result DataFrame :=
  match fs_read fs file_path with
  | Ok text => Pandas.read_csv text 1
  | Raise e => Raise e
  end.

(** [load_txt(file_path)]: the result [None] is Python's [None], returned
    after the failure was printed. *)
Definition load_txt (fs : FileSystem) (file_path : string)
  : Eff.M (option DataFrame) :=
  match pd_read_csv fs file_path with
  | Ok df => Eff.ret (Some (Pandas.dropna df))
  | Raise Py.FileNotFoundError =>
      (Eff.emit (EvPrint (MsgFileNotFound file_path)) ;;; Eff.ret None)%eff
  | Raise e =>
      (Eff.emit (EvPrint (MsgLoadError e)) ;;; Eff.ret None)%eff
  end.

(* ------------------------------------------------------------------ *)
(** ** Chart rendering: [plot_df] *)

(** The keyword arguments of [plot_df] and [main]. *)
Record PlotSpec : Type := mkPlotSpec {
  image_data_type : string;
  width : Z;
  height : Z;
  x_label : option string;
  y_label : option string;
  font_size : Z;
  colors : list string;
  column_order : string;
  legend : bool
}.

(** The plotting backend. A call of [matplotlib.pyplot] either goes
    through, and is then an event of the log, or raises without effect:
    [refuses ev] is the exception raised at the call [ev], if any (a
    [ValueError] for a colour, a figure size or a format the backend does
    not take, an [OverflowError] for a font size, an [OSError] for a file
    it cannot write, the error of a layout that cannot be computed, ...).
    Which calls are refused is a parameter of every property below; it is
    the same for all the calls of a run. [plt.close()] alone is taken
    never to raise. *)
Record Backend : Type := mkBackend {
  refuses : Event -> option Py.Exc
}.

Section Renderer.

Variable be : Backend.

(** A call of the backend. *)
Definition plt (ev : Event) : Eff.M unit :=
  match refuses be ev with
  | None => Eff.emit ev
  | Some e => Eff.raise e
  end.

(** [len(df.columns)], an [AttributeError] when [df] is [None]. *)
Definition len_columns (df : option DataFrame) : Eff.M Z :=
  match df with
  | Some d => Eff.ret (Z.of_nat (List.length (columns d)))
  | None => Eff.raise Py.AttributeError
  end.

(** The body of the plotting loop for one [col_idx]. The arguments of
    [plt.plot] are evaluated in the order they are written, then the call
    is made. *)
Definition plot_column (df : option DataFrame) (colors : list string)
                       (col_idx : Z) : Eff.M unit :=
  (n <- len_columns df ;;
   if (col_idx <=? n - 1)%Z then
     match df with
     | None => Eff.raise Py.AttributeError
     | Some d =>
         x <- Eff.or_raise (Pandas.iloc_col d 0) Py.IndexError ;;
         y <- Eff.or_raise (Pandas.iloc_col d col_idx) Py.IndexError ;;
         color <- Eff.or_raise (Py.index colors (col_idx - 1))
                               Py.IndexError ;;
         label <- Eff.or_raise (Py.index (columns d) (col_idx - 1))
                               Py.IndexError ;;
         plt (EvPlot x y color label)
     end
   else Eff.ret tt)%eff.

Definition plot_df (df : option DataFrame) (image_file_name : string)
                   (ps : PlotSpec) : Eff.M unit :=
  ((* Initial settings *)
   column_indices <-
     Eff.comprehension
       (fun i => Eff.or_raise (Py.int_of_char i) Py.ValueError)
       (list_ascii_of_string (column_order ps)) ;;
   plt (EvRcParams (font_size ps)) ;;;
   plt (EvFigure (width ps) (height ps)) ;;;
   (* Plotting *)
   Eff.for_each column_indices (plot_column df (colors ps)) ;;;
   (* Post settings *)
   plt (EvXLabel (x_label ps)) ;;;
   plt (EvYLabel (y_label ps)) ;;;
   (if legend ps then plt EvLegend else Eff.ret tt) ;;;
   plt EvTightLayout ;;;
   (* Saving *)
   plt (EvSavefig (image_file_name ++ "." ++ image_data_type ps)
                  (image_data_type ps)) ;;;
   Eff.emit EvClose)%eff.

(* ---------------------------------------------------------------- *)
(** ** The batch driver: [main] *)

(** The body of [main]'s loop, for the path [tf]. *)
Definition main_body (fs : FileSystem) (ps : PlotSpec) (tf : string)
  : Eff.M unit :=
  (df <- load_txt fs tf ;;
   plot_df df (Py.os_path_basename tf) ps)%eff.

Definition main (fs : FileSystem) (dir : string) (ps : PlotSpec)
  : Eff.M unit :=
  let txt_files := get_txt_files fs dir in
  Eff.for_each txt_files (main_body fs ps).

(* ---------------------------------------------------------------- *)
(** ** The command line: the [__main__] block *)

(** The [Namespace] that [parser.parse_args()] returns. *)
Record Namespace : Type := mkNamespace {
  arg_input_dir : string;
  arg_image_data_type : option string;
  arg_order : string;
  arg_width : Z;
  arg_height : Z;
  arg_font_size : Z;
  arg_legend : bool;
  arg_x_label : option string;
  arg_y_label : option string
}.

(** The defaults of [main]'s keyword arguments. *)
Definition main_defaults : PlotSpec :=
  {| image_data_type := "svg";
     width := 10;
     height := 6;
     x_label := None;
     y_label := None;
     font_size := 20;
     colors := ["red"; "green"; "blue"];
     column_order := "312";
     legend := false |}.

(** The call of [main] at the end of the script: the keyword arguments it
    passes, the others at their defaults. *)
Definition script (fs : FileSystem) (args : Namespace) : Eff.M unit :=
  main fs (arg_input_dir args)
    {| image_data_type := image_data_type main_defaults;
       width := arg_width args;
       height := arg_height args;
       x_label := x_label main_defaults;
       y_label := y_label main_defaults;
       font_size := arg_font_size args;
       colors := colors main_defaults;
       column_order := arg_order args;
       legend := arg_legend args |}.

End Renderer.

(** Events of interest in a log. *)
Definition saved_files (l : list Event) : list string :=
  flat_map (fun e => match e with
                     | EvSavefig fname _ => [fname]
                     | _ => []
                     end) l.

Definition plotted (l : list Event) : list Event :=
  filter (fun e => match e with EvPlot _ _ _ _ => true | _ => false end) l.

(** The events after the plotting loop, up to the save. *)
Definition post_settings (ps : PlotSpec) : list Event :=
  [EvXLabel (x_label ps); EvYLabel (y_label ps)]
  ++ (if legend ps then [EvLegend] else [])
  ++ [EvTightLayout].

(** The name [main] and [plot_df] give the image of the input path [tf]. *)
Definition image_name (ps : PlotSpec) (tf : string) : string :=
  (Py.os_path_basename tf ++ "." ++ image_data_type ps)%string.

(** The header names of the series drawn, in drawing order. *)
Definition plotted_names (l : list Event) : list string :=
  flat_map (fun e => match e with
                     | EvPlot _ y _ _ => [series_name y]
                     | _ => []
                     end) l.

(** What an event of a rendering under the name [name] has to be, given
    the settings: the renderer prints nothing, and each call it makes takes
    its argument from the settings. *)
Definition event_follows (ps : PlotSpec) (name : string) (ev : Event)
  : Prop :=
  match ev with
  | EvPrint _ => False
  | EvRcParams f => f = font_size ps
  | EvFigure w h => w = width ps /\ h = height ps
  | EvPlot _ _ color _ => In color (colors ps)
  | EvXLabel l => l = x_label ps
  | EvYLabel l => l = y_label ps
  | EvLegend => legend ps = true
  | EvTightLayout => True
  | EvSavefig fname format =>
      fname = (name ++ "." ++ image_data_type ps)%string
      /\ format = image_data_type ps
  | EvClose => True
  end.

(** The digits of the order string, when every character is one. *)
Fixpoint parse_order (cs : list ascii) : option (list Z) :=
  match cs with
  | [] => Some []
  | c :: r =>
      match Py.int_of_char c, parse_order r with
      | Some d, Some ds => Some (d :: ds)
      | _, _ => None
      end
  end.

(** The number of columns of a table. *)
Definition ncols (df : DataFrame) : Z := Z.of_nat (List.length (columns df)).

(** The backend lets every call of [evs] through. *)
Definition accepts (be : Backend) (evs : list Event) : bool :=
  forallb (fun ev => match refuses be ev with
                     | None => true
                     | Some _ => false
                     end) evs.

(** The calls [evs] made one after the other. *)
Definition run (be : Backend) (evs : list Event) : Eff.M unit :=
  Eff.for_each evs (plt be).

(** The call of [plt.plot] that the digit [d] stands for, when all four
    of its arguments can be evaluated. *)
Definition plot_call (df : DataFrame) (cl : list string) (d : Z)
  : option Event :=
  match Pandas.iloc_col df 0, Pandas.iloc_col df d,
        Py.index cl (d - 1), Py.index (columns df) (d - 1) with
  | Some x, Some y, Some color, Some label => Some (EvPlot x y color label)
  | _, _, _, _ => None
  end.

(** A pass of the plotting loop that does nothing: no series, no error. *)
Definition silently_skipped (be : Backend) (df : DataFrame)
                            (cl : list string) (d : Z) : Prop :=
  plot_column be (Some df) cl d = ([], Ok tt).

(** The files of a walk, each with the directory path that holds it, in
    the order the walk meets them. *)
Definition walk_entries (w : list (string * list string))
  : list (string * string) :=
  flat_map (fun rf => map (pair (fst rf)) (snd rf)) w.

Definition is_txt (file : string) : bool := Py.endswith file ".txt".

(** [file_under top t root file]: in the tree [t] found at path [top], the
    directory of path [root] lists the file [file]. *)
Inductive file_under : string -> DirTree -> string -> string -> Prop :=
| file_here top files subdirs file :
    In file files ->
    file_under top (Dir files subdirs) top file
| file_below top files subdirs name sub root file :
    In (name, sub) subdirs ->
    file_under (Py.os_path_join top name) sub root file ->
    file_under top (Dir files subdirs) root file.

(** *** The input file as text

    What the loader's contract speaks of, read off the text of the file:
    its lines, the header line, the data lines and their fields. *)

Definition file_lines (text : string) : list string :=
  Pandas.split_lines text.

(** The second line of the file. *)
Definition header_line (text : string) : string :=
  nth 1 (file_lines text) "".

(** The lines after the second, blank ones apart. *)
Definition data_lines (text : string) : list string :=
  filter Pandas.nonblank (skipn 2 (file_lines text)).

(** The fields of a line. *)
Definition fields (line : string) : list string :=
  Pandas.split Pandas.tab line.

(** What stands in a field for a missing value: nothing at all, or one of
    the spellings of "not available". *)
Definition missing_markers : list string :=
  [ ""; "#N/A"; "#N/A N/A"; "#NA"; "-1.#IND"; "-1.#QNAN"; "-NaN"; "-nan";
    "1.#IND"; "1.#QNAN"; "<NA>"; "N/A"; "NA"; "NULL"; "NaN"; "None";
    "n/a"; "nan"; "null" ].

Definition field_missing (field : string) : bool :=
  existsb (String.eqb field) missing_markers.

(** A data line with no missing field, for a table of [n] columns: one
    field per column, none of them missing. *)
Definition complete_line (n : nat) (line : string) : bool :=
  (List.length (fields line) =? n)%nat
  && forallb (fun f => negb (field_missing f)) (fields line).

(** A data line with a field for every one of [n] columns, none of them
    empty. *)
Definition populated_line (n : nat) (line : string) : bool :=
  (List.length (fields line) =? n)%nat
  && forallb (fun f => negb (String.eqb f "")) (fields line).

Definition has_char (c : ascii) (s : string) : bool :=
  existsb (Ascii.eqb c) (list_ascii_of_string s).

Fixpoint nodupb (l : list string) : bool :=
  match l with
  | [] => true
  | x :: r => negb (existsb (String.eqb x) r) && nodupb r
  end.

(** The character that opens and closes a quoted field, and a field that
    begins with it. *)
Definition quotechar : ascii := ascii_of_nat 34.

Definition quoted (field : string) : bool :=
  match field with
  | String c _ => Ascii.eqb c quotechar
  | EmptyString => false
  end.

(** A line none of whose fields is quoted. *)
Definition unquoted_line (line : string) : bool :=
  negb (existsb quoted (fields line)).

(** Every carriage return of the text is followed by a line feed. *)
Fixpoint cr_then_lf (s : string) : bool :=
  match s with
  | EmptyString => true
  | String c r =>
      (if Ascii.eqb c Pandas.cr
       then match r with
            | String c' _ => Ascii.eqb c' Pandas.lf
            | EmptyString => false
            end
       else true)
      && cr_then_lf r
  end.

(** A text without line end and without quoted field: what a first line
    can hold. *)
Definition plain_line (l : string) : bool :=
  negb (has_char Pandas.lf l) && negb (has_char Pandas.cr l)
  && unquoted_line l.

(** The two line ends of a valid file. *)
Definition line_ends : list string :=
  [ String Pandas.lf EmptyString;
    String Pandas.cr (String Pandas.lf EmptyString) ].

(** A valid tab-separated file: lines end with a line feed, with or
    without a carriage return before it; the second line is not blank and
    names every column, each name once; no data line has more fields than
    there are columns; no field of any line is quoted. *)
Definition valid_tsv (text : string) : bool :=
  let names := fields (header_line text) in
  Pandas.nonblank (header_line text)
  && forallb (fun name => negb (String.eqb name "")) names
  && nodupb names
  && forallb (fun l => (List.length (fields l) <=? List.length names)%nat)
             (data_lines text)
  && forallb unquoted_line (file_lines text)
  && cr_then_lf text.
(** ** Sample inputs *)

Module Sample.

Definition ht := String Pandas.tab EmptyString.
Definition nl := String Pandas.lf EmptyString.

(** A title line, the header line and two data rows. *)
Definition text : string :=
  "profile 1" ++ nl ++
  "Distance" ++ ht ++ "A" ++ ht ++ "B" ++ ht ++ "C" ++ nl ++
  "0.0" ++ ht ++ "10" ++ ht ++ "20" ++ ht ++ "30" ++ nl ++
  "0.5" ++ ht ++ "11" ++ ht ++ "21" ++ ht ++ "31" ++ nl.

(** The same with a third row whose cell for column [B] is blank. *)
Definition text_blank : string :=
  text ++ "1.0" ++ ht ++ "12" ++ ht ++ ht ++ "32" ++ nl.

(** Lines ended by a carriage return and a line feed: a title, the
    header, a full row, a row with [NA] for [B], a row that stops after
    [A], and a full row. *)
Definition crlf := String Pandas.cr (String Pandas.lf EmptyString).

Definition text_crlf : string :=
  "profile 3" ++ crlf ++
  "Distance" ++ ht ++ "A" ++ ht ++ "B" ++ ht ++ "C" ++ crlf ++
  "0.0" ++ ht ++ "10" ++ ht ++ "20" ++ ht ++ "30" ++ crlf ++
  "0.5" ++ ht ++ "11" ++ ht ++ "NA" ++ ht ++ "31" ++ crlf ++
  "1.0" ++ ht ++ "12" ++ crlf ++
  "1.5" ++ ht ++ "13" ++ ht ++ "23" ++ ht ++ "33" ++ crlf.

(** A header that names two columns [A]. *)
Definition text_repeated : string :=
  "profile 4" ++ nl ++
  "Distance" ++ ht ++ "A" ++ ht ++ "A" ++ nl ++
  "0.0" ++ ht ++ "10" ++ ht ++ "20" ++ nl.

(** Lines ended by a carriage return alone. *)
Definition text_cr : string :=
  "title" ++ String Pandas.cr "A" ++ ht ++ "B" ++
  String Pandas.cr "1" ++ ht ++ "2" ++ String Pandas.cr EmptyString.

(** A header that leaves its second column without a name. *)
Definition text_unnamed : string :=
  "profile 5" ++ nl ++
  "Distance" ++ ht ++ ht ++ "B" ++ nl ++
  "0.0" ++ ht ++ "10" ++ ht ++ "20" ++ nl.

(** Data rows with one field more than the header has names, and a last
    row that stops one field early. *)
Definition text_labelled : string :=
  "profile 6" ++ nl ++
  "A" ++ ht ++ "B" ++ nl ++
  "r1" ++ ht ++ "10" ++ ht ++ "20" ++ nl ++
  "r2" ++ ht ++ "11" ++ ht ++ "21" ++ nl ++
  "r3" ++ ht ++ "12" ++ nl.

(** A second data row wider than the first. *)
Definition text_ragged : string :=
  "profile 7" ++ nl ++
  "A" ++ ht ++ "B" ++ nl ++
  "10" ++ ht ++ "20" ++ nl ++
  "11" ++ ht ++ "21" ++ ht ++ "31" ++ nl.

(** A backend that takes every call. *)
Definition permissive : Backend :=
  {| refuses := fun _ => None |}.

(** A backend that knows three colours and takes every other call. *)
Definition three_colours : Backend :=
  {| refuses := fun ev =>
       match ev with
       | EvPlot _ _ color _ =>
           if existsb (String.eqb color) ["red"; "green"; "blue"]
           then None else Some Py.ValueError
       | _ => None
       end |}.

(** A backend that refuses a figure with a negative side, any colour
    but three, and any format but three. *)
Definition strict : Backend :=
  {| refuses := fun ev =>
       match ev with
       | EvFigure w h =>
           if ((w <? 0) || (h <? 0))%Z then Some Py.ValueError else None
       | EvPlot _ _ color _ =>
           if existsb (String.eqb color) ["red"; "green"; "blue"]
           then None else Some Py.ValueError
       | EvSavefig _ format =>
           if existsb (String.eqb format) ["svg"; "png"; "pdf"]
           then None else Some Py.ValueError
       | _ => None
       end |}.

Definition df : DataFrame :=
  {| columns := ["Distance"; "A"; "B"; "C"];
     rows := [ [Some "0.0"; Some "10"; Some "20"; Some "30"];
               [Some "0.5"; Some "11"; Some "21"; Some "31"] ] |}.

(** A directory [data] holding [sample.txt] alone. *)
Definition fs_one : FileSystem :=
  {| fs_tree := fun d => if String.eqb d "data"
                         then Dir ["sample.txt"] [] else Unreadable;
     fs_read := fun p => if String.eqb p "data/sample.txt"
                         then Ok text else Raise Py.FileNotFoundError |}.

(** A directory [data] holding [bad.txt], which cannot be read, and
    [good.txt]. *)
Definition fs_bad_good : FileSystem :=
  {| fs_tree := fun d => if String.eqb d "data"
                         then Dir ["bad.txt"; "good.txt"] []
                         else Unreadable;
     fs_read := fun p => if String.eqb p "data/good.txt"
                         then Ok text
                         else if String.eqb p "data/bad.txt"
                              then Raise Py.OSError
                              else Raise Py.FileNotFoundError |}.

(** A tree with a sub-directory and a directory that cannot be listed. *)
Definition fs_nested : FileSystem :=
  {| fs_tree := fun d =>
       if String.eqb d "data"
       then Dir ["a.txt"; "notes.md"]
                [ ("sub", Dir ["b.txt"; "c.TXT"] []);
                  ("locked", Unreadable) ]
       else Unreadable;
     fs_read := fun _ => Ok text |}.

(** A directory [data] holding [blank.txt], whose third row lacks a cell. *)
Definition fs_blank : FileSystem :=
  {| fs_tree := fun d => if String.eqb d "data"
                         then Dir ["blank.txt"] [] else Unreadable;
     fs_read := fun p => if String.eqb p "data/blank.txt"
                         then Ok text_blank
                         else Raise Py.FileNotFoundError |}.

Definition spec_order (order : string) (cl : list string) : PlotSpec :=
  {| image_data_type := "svg";
     width := 4;
     height := 2;
     x_label := None;
     y_label := None;
     font_size := 9;
     colors := cl;
     column_order := order;
     legend := false |}.

(** A directory [data] holding [title.txt], a title line and no more. *)
Definition fs_title_only : FileSystem :=
  {| fs_tree := fun d => if String.eqb d "data"
                         then Dir ["title.txt"] [] else Unreadable;
     fs_read := fun p => if String.eqb p "data/title.txt"
                         then Ok ("profile 1" ++ nl)%string
                         else Raise Py.FileNotFoundError |}.

(** A directory [data] holding [good.txt] and then [bad.txt], which
    cannot be read. *)
Definition fs_good_bad : FileSystem :=
  {| fs_tree := fun d => if String.eqb d "data"
                         then Dir ["good.txt"; "bad.txt"] []
                         else Unreadable;
     fs_read := fun p => if String.eqb p "data/good.txt"
                         then Ok text
                         else Raise Py.FileNotFoundError |}.

(** A directory [data] holding [wide.txt], a table of five columns. *)
Definition fs_wide : FileSystem :=
  {| fs_tree := fun d => if String.eqb d "data"
                         then Dir ["wide.txt"] [] else Unreadable;
     fs_read := fun p =>
       if String.eqb p "data/wide.txt"
       then Ok ("profile 2" ++ nl ++
                "Distance" ++ ht ++ "A" ++ ht ++ "B" ++ ht ++ "C" ++ ht
                ++ "D" ++ nl ++
                "0.0" ++ ht ++ "10" ++ ht ++ "20" ++ ht ++ "30" ++ ht
                ++ "40" ++ nl)%string
       else Raise Py.FileNotFoundError |}.

(** A directory [data] holding [crlf.txt], [repeated.txt] and [cr.txt]. *)
Definition fs_texts : FileSystem :=
  {| fs_tree := fun d => if String.eqb d "data"
                         then Dir ["crlf.txt"; "repeated.txt"; "cr.txt"] []
                         else Unreadable;
     fs_read := fun p =>
       if String.eqb p "data/crlf.txt" then Ok text_crlf
       else if String.eqb p "data/repeated.txt" then Ok text_repeated
       else if String.eqb p "data/cr.txt" then Ok text_cr
       else Raise Py.FileNotFoundError |}.

End Sample.

(* ================================================================== *)
(** * Properties *)

(* ------------------------------------------------------------------ *)
(** ** Subscripts and digits *)

Lemma index_in_range {A} (l : list A) (i : Z) :
  (0 <= i < Z.of_nat (List.length l))%Z ->
  exists a, Py.index l i = Some a /\ nth_error l (Z.to_nat i) = Some a.
Proof.
  intros [H0 H1]. unfold Py.index.
  destruct (0 <=? i)%Z eqn:E; [| apply Z.leb_gt in E; lia].
  destruct (nth_error l (Z.to_nat i)) as [a|] eqn:N.
  - now exists a.
  - apply nth_error_None in N. lia.
Qed.

Lemma index_past_end {A} (l : list A) (i : Z) :
  (Z.of_nat (List.length l) <= i)%Z -> Py.index l i = None.
Proof.
  intros H. unfold Py.index.
  destruct (0 <=? i)%Z eqn:E; [| apply Z.leb_gt in E; lia].
  apply nth_error_None. lia.
Qed.

(** [l[-1]] is the last element. *)
Lemma index_minus_one {A} (l : list A) (a : A) :
  Py.index (l ++ [a]) (-1) = Some a.
Proof.
  unfold Py.index. rewrite length_app. cbn [List.length].
  destruct (0 <=? -1)%Z eqn:E; [discriminate|].
  destruct (- Z.of_nat (List.length l + 1) <=? -1)%Z eqn:E2;
    [| apply Z.leb_gt in E2; lia].
  replace (Z.to_nat (Z.of_nat (List.length l + 1) + -1))
    with (List.length l + 0)%nat by lia.
  now rewrite nth_error_app2, Nat.add_comm, Nat.add_sub by lia.
Qed.

Lemma index_minus_one_last {A} (l : list A) (d : A) :
  l <> [] -> Py.index l (-1) = Some (last l d).
Proof.
  intros H. destruct (exists_last H) as [l' [a ->]].
  now rewrite index_minus_one, last_last.
Qed.

Lemma int_of_char_range (c : ascii) (d : Z) :
  Py.int_of_char c = Some d -> (0 <= d <= 9)%Z.
Proof.
  unfold Py.int_of_char, Py.is_digit.
  destruct (_ && _) eqn:E; [| discriminate].
  apply andb_true_iff in E as [E1 E2].
  apply Nat.leb_le in E1, E2. intros [= <-]. lia.
Qed.

(* ------------------------------------------------------------------ *)
(** ** The order string *)

Lemma comprehension_int (cs : list ascii) :
  Eff.comprehension
    (fun i => Eff.or_raise (Py.int_of_char i) Py.ValueError) cs
  = match parse_order cs with
    | Some ds => ([], Ok ds)
    | None => ([], Raise Py.ValueError)
    end.
Proof.
  induction cs as [|c r IH]; [reflexivity|].
  cbn [Eff.comprehension parse_order].
  destruct (Py.int_of_char c) as [d|]; [| reflexivity].
  cbn. rewrite IH. now destruct (parse_order r).
Qed.

Lemma parse_order_None (cs : list ascii) (c : ascii) :
  In c cs -> Py.is_digit c = false -> parse_order cs = None.
Proof.
  induction cs as [|c' r IH]; [contradiction|].
  intros [-> | Hin] Hc; cbn [parse_order].
  - unfold Py.int_of_char. now rewrite Hc.
  - rewrite (IH Hin Hc). now destruct (Py.int_of_char c').
Qed.

Lemma parse_order_In (cs : list ascii) (ds : list Z) (c : ascii) (d : Z) :
  parse_order cs = Some ds -> In c cs -> Py.int_of_char c = Some d ->
  In d ds.
Proof.
  revert ds. induction cs as [|c' r IH]; [contradiction|].
  intros ds Hp [-> | Hin] Hc; cbn [parse_order] in Hp.
  - rewrite Hc in Hp. destruct (parse_order r); [| discriminate].
    injection Hp as <-. now left.
  - destruct (Py.int_of_char c'); [| discriminate].
    destruct (parse_order r) as [ds'|]; [| discriminate].
    injection Hp as <-. right. now apply IH.
Qed.

(* ------------------------------------------------------------------ *)
(** ** Loops *)

Section ForEach.

Context {A : Type}.
Variable body : A -> Eff.M unit.

(** A loop that completes has run every pass to completion, and its log
    is the passes' logs one after the other. *)
Lemma for_each_ok (xs : list A) :
  Eff.outcome (Eff.for_each xs body) = Ok tt ->
  (forall x, In x xs -> Eff.outcome (body x) = Ok tt)
  /\ Eff.log (Eff.for_each xs body)
     = flat_map (fun x => Eff.log (body x)) xs.
Proof.
  induction xs as [|x r IH]; [intros _; split; [intros ? [] | reflexivity]|].
  cbn [Eff.for_each flat_map]. unfold Eff.bind, Eff.outcome, Eff.log in *.
  destruct (body x) as [l [[]|e]] eqn:Hx; [| discriminate].
  destruct (Eff.for_each r body) as [l' res]. cbn [fst snd] in *.
  intros Hr. destruct (IH Hr) as [Hall Hlog]. split.
  - intros y [<- | Hy]; [now rewrite Hx | now apply Hall].
  - now rewrite Hlog.
Qed.

Lemma for_each_all_ok (xs : list A) :
  (forall x, In x xs -> Eff.outcome (body x) = Ok tt) ->
  Eff.outcome (Eff.for_each xs body) = Ok tt.
Proof.
  induction xs as [|x r IH]; intros H; [reflexivity|].
  cbn [Eff.for_each]. unfold Eff.bind, Eff.outcome in *.
  pose proof (H x (or_introl eq_refl)) as Hx.
  destruct (body x) as [l [[]|e]]; [| discriminate].
  pose proof (IH (fun y Hy => H y (or_intror Hy))) as Hr.
  destruct (Eff.for_each r body) as [l' res]. exact Hr.
Qed.

(** A loop stops at the first pass that raises: the passes before it ran
    to completion and no later pass has run. *)
Lemma for_each_stops (done rest : list A) (x : A) (e : Py.Exc) :
  (forall y, In y done -> Eff.outcome (body y) = Ok tt) ->
  Eff.outcome (body x) = Raise e ->
  Eff.for_each (done ++ x :: rest) body
  = (flat_map (fun y => Eff.log (body y)) done ++ Eff.log (body x), Raise e).
Proof.
  intros Hdone Hx. induction done as [|y r IH].
  - cbn [app Eff.for_each flat_map]. unfold Eff.bind, Eff.outcome, Eff.log in *.
    destruct (body x) as [l [[]|e']]; cbn [fst snd] in *; [discriminate|].
    now injection Hx as ->.
  - cbn [app Eff.for_each flat_map]. unfold Eff.bind.
    pose proof (Hdone y (or_introl eq_refl)) as Hy.
    unfold Eff.outcome, Eff.log in *.
    destruct (body y) as [l [[]|e']]; cbn [fst snd] in *; [| discriminate].
    rewrite (IH (fun z Hz => Hdone z (or_intror Hz))).
    now rewrite app_assoc.
Qed.

(** A loop that raises did so in one of its passes, the first that does. *)
Lemma for_each_raise (xs : list A) (e : Py.Exc) :
  Eff.outcome (Eff.for_each xs body) = Raise e ->
  exists done x rest,
    xs = done ++ x :: rest
    /\ (forall y, In y done -> Eff.outcome (body y) = Ok tt)
    /\ Eff.outcome (body x) = Raise e.
Proof.
  induction xs as [|x r IH]; [discriminate|].
  cbn [Eff.for_each]. unfold Eff.bind, Eff.outcome in *.
  destruct (body x) as [l [[]|e']] eqn:Hx.
  - destruct (Eff.for_each r body) as [l' res]. cbn [snd] in *.
    intros Hr. destruct (IH Hr) as (done & y & rest & -> & Hd & Hy).
    exists (x :: done), y, rest. split; [reflexivity|]. split; [| exact Hy].
    intros z [<- | Hz]; [now rewrite Hx | now apply Hd].
  - cbn [snd]. intros [= ->]. exists [], x, r.
    split; [reflexivity|]. split; [intros ? [] | now rewrite Hx].
Qed.

(** An event of the loop's log comes from one of its passes. *)
Lemma for_each_log_In (xs : list A) (ev : Event) :
  In ev (Eff.log (Eff.for_each xs body)) ->
  exists x, In x xs /\ In ev (Eff.log (body x)).
Proof.
  induction xs as [|x r IH]; [intros []|].
  cbn [Eff.for_each]. unfold Eff.bind, Eff.log in *.
  destruct (body x) as [l [[]|e]] eqn:Hx.
  - destruct (Eff.for_each r body) as [l' res]. cbn [fst] in *.
    intros Hin. apply in_app_or in Hin as [Hin | Hin].
    + exists x. split; [now left | now rewrite Hx].
    + destruct (IH Hin) as (y & Hy & Hev). exists y. split; [now right | exact Hev].
  - cbn [fst]. intros Hin. exists x. split; [now left | now rewrite Hx].
Qed.

End ForEach.

(* ------------------------------------------------------------------ *)
(** ** Calls of the backend *)

Section BackendFacts.

Variable be : Backend.

Lemma plt_accepted (ev : Event) :
  refuses be ev = None -> plt be ev = ([ev], Ok tt).
Proof. unfold plt. now intros ->. Qed.

Lemma plt_refused (ev : Event) (e : Py.Exc) :
  refuses be ev = Some e -> plt be ev = ([], Raise e).
Proof. unfold plt. now intros ->. Qed.

(** Calls that the backend takes are all made. *)
Lemma run_accepts (evs : list Event) :
  accepts be evs = true -> run be evs = (evs, Ok tt).
Proof.
  induction evs as [|ev r IH]; [reflexivity|].
  cbn [accepts forallb]. intros H. apply andb_true_iff in H as [Hev Hr].
  unfold run in *. cbn [Eff.for_each].
  destruct (refuses be ev) eqn:E; [discriminate|].
  rewrite (plt_accepted ev E). unfold Eff.bind. now rewrite (IH Hr).
Qed.

(** Calls that were all made were all taken. *)
Lemma run_ok (evs : list Event) :
  Eff.outcome (run be evs) = Ok tt ->
  accepts be evs = true /\ run be evs = (evs, Ok tt).
Proof.
  intros H.
  assert (Ha : accepts be evs = true).
  { unfold run in H. apply for_each_ok in H as [Hall _].
    unfold accepts. apply forallb_forall. intros ev Hev.
    specialize (Hall ev Hev). unfold plt in Hall.
    now destruct (refuses be ev). }
  split; [exact Ha | now apply run_accepts].
Qed.

(** Calls stop at the first one the backend refuses. *)
Lemma run_raise (evs : list Event) (e : Py.Exc) :
  Eff.outcome (run be evs) = Raise e ->
  exists pre ev rest,
    evs = pre ++ ev :: rest
    /\ run be evs = (pre, Raise e)
    /\ refuses be ev = Some e.
Proof.
  intros H. unfold run in *.
  destruct (for_each_raise (plt be) evs e H)
    as (pre & ev & rest & -> & Hpre & Hev).
  exists pre, ev, rest. split; [reflexivity|].
  assert (Hr : refuses be ev = Some e).
  { unfold plt in Hev. destruct (refuses be ev); [| discriminate].
    cbn in Hev. congruence. }
  split; [| exact Hr].
  rewrite (for_each_stops (plt be) pre rest ev e Hpre Hev).
  rewrite (plt_refused ev e Hr). cbn [Eff.log fst]. rewrite app_nil_r.
  f_equal. clear H Hev Hr.
  induction pre as [|p r IH]; [reflexivity|].
  cbn [flat_map]. rewrite (IH (fun y Hy => Hpre y (or_intror Hy))).
  pose proof (Hpre p (or_introl eq_refl)) as Hp. unfold plt in *.
  now destruct (refuses be p).
Qed.

Lemma run_log_In (evs : list Event) (ev : Event) :
  In ev (Eff.log (run be evs)) -> In ev evs.
Proof.
  unfold run. intros H. apply for_each_log_In in H as (x & Hx & H).
  unfold plt in H. destruct (refuses be x); [destruct H|].
  destruct H as [<- | []]. exact Hx.
Qed.

End BackendFacts.

(* ------------------------------------------------------------------ *)
(** ** One pass of the plotting loop *)

Lemma iloc_col_in_range (df : DataFrame) (i : Z) :
  (0 <= i < ncols df)%Z ->
  exists y, Pandas.iloc_col df i = Some y
            /\ nth_error (columns df) (Z.to_nat i) = Some (series_name y).
Proof.
  intros H. destruct (index_in_range (columns df) i H) as [name [Hi Hn]].
  unfold Pandas.iloc_col. rewrite Hi. eexists. split; [reflexivity|]. exact Hn.
Qed.

Lemma saved_files_app (l1 l2 : list Event) :
  saved_files (l1 ++ l2) = saved_files l1 ++ saved_files l2.
Proof. unfold saved_files. apply flat_map_app. Qed.

(** A log that holds no call of [savefig]. *)
Lemma saved_files_none (l : list Event) :
  (forall fname format, ~ In (EvSavefig fname format) l) ->
  saved_files l = [].
Proof.
  induction l as [|ev r IH]; intros H; [reflexivity|].
  cbn [saved_files flat_map].
  fold (saved_files r). rewrite IH by (intros f g Hin; apply (H f g); now right).
  destruct ev; try reflexivity. destruct (H fname format). now left.
Qed.

Section RendererFacts.

Variable be : Backend.

(** An index the guard refuses: nothing happens. *)
Lemma plot_column_skipped (df : DataFrame) (cl : list string) (d : Z) :
  (ncols df <= d)%Z -> plot_column be (Some df) cl d = ([], Ok tt).
Proof.
  intros H. unfold plot_column, len_columns. cbn.
  fold (ncols df).
  destruct (d <=? ncols df - 1)%Z eqn:E; [apply Z.leb_le in E; lia|].
  reflexivity.
Qed.

(** An index the guard lets through: [IndexError] when the colour
    subscript is out of range, the call of [plt.plot] otherwise. *)
Lemma plot_column_guarded (df : DataFrame) (cl : list string) (d : Z) :
  (0 <= d < ncols df)%Z ->
  exists x y label,
    Pandas.iloc_col df 0 = Some x /\
    Pandas.iloc_col df d = Some y /\
    Py.index (columns df) (d - 1) = Some label /\
    plot_column be (Some df) cl d =
      match Py.index cl (d - 1) with
      | Some color => plt be (EvPlot x y color label)
      | None => ([], Raise Py.IndexError)
      end.
Proof.
  intros H.
  destruct (iloc_col_in_range df 0 ltac:(lia)) as [x [Hx _]].
  destruct (iloc_col_in_range df d H) as [y [Hy _]].
  assert (exists label, Py.index (columns df) (d - 1) = Some label)
    as [label Hl].
  { destruct (Z.eq_dec d 0) as [-> | Hd].
    - exists (last (columns df) ""). apply index_minus_one_last.
      unfold ncols in H. destruct (columns df); cbn in *; [lia | discriminate].
    - destruct (index_in_range (columns df) (d - 1)) as [l [Hl _]];
        [unfold ncols in H; lia | now exists l]. }
  exists x, y, label. repeat split; try assumption.
  unfold plot_column, len_columns. cbn. fold (ncols df).
  destruct (d <=? ncols df - 1)%Z eqn:E; [| apply Z.leb_gt in E; lia].
  rewrite Hx, Hy, Hl. cbn.
  destruct (Py.index cl (d - 1)); [| reflexivity]. cbn.
  now destruct (plt be (EvPlot x y s label)).
Qed.

(** The loop saves nothing. *)
Lemma plot_column_log (df : option DataFrame) (cl : list string) (d : Z) :
  saved_files (Eff.log (plot_column be df cl d)) = [].
Proof.
  unfold plot_column, len_columns.
  destruct df as [df|]; [| reflexivity]. cbn.
  destruct (_ <=? _)%Z; [| reflexivity].
  destruct (Pandas.iloc_col df 0); [| reflexivity]. cbn.
  destruct (Pandas.iloc_col df d); [| reflexivity]. cbn.
  destruct (Py.index cl (d - 1)); [| reflexivity]. cbn.
  destruct (Py.index (columns df) (d - 1)); [| reflexivity]. cbn.
  unfold plt. destruct (refuses be _); reflexivity.
Qed.

Lemma for_each_plot_column_log (df : option DataFrame) (cl : list string)
                               (ds : list Z) :
  saved_files (Eff.log (Eff.for_each ds (plot_column be df cl))) = [].
Proof.
  induction ds as [|d r IH]; [reflexivity|].
  cbn [Eff.for_each]. unfold Eff.bind.
  pose proof (plot_column_log df cl d) as Hd.
  unfold Eff.log in *.
  destruct (plot_column be df cl d) as [l [[]|e]]; cbn [fst] in Hd |- *.
  - destruct (Eff.for_each r (plot_column be df cl)) as [l' res];
      cbn [fst] in IH |- *.
    now rewrite saved_files_app, Hd, IH.
  - exact Hd.
Qed.

(** A guarded index whose colour subscript is out of range stops the loop. *)
Lemma for_each_plot_column_raises (df : DataFrame) (cl : list string)
                                  (ds : list Z) (d : Z) :
  In d ds ->
  plot_column be (Some df) cl d = ([], Raise Py.IndexError) ->
  exists e,
    Eff.outcome (Eff.for_each ds (plot_column be (Some df) cl)) = Raise e.
Proof.
  induction ds as [|d' r IH]; [contradiction|].
  intros [-> | Hin] Hd; cbn [Eff.for_each].
  - rewrite Hd. now exists Py.IndexError.
  - unfold Eff.bind.
    destruct (plot_column be (Some df) cl d') as [l [[]|e]].
    + destruct (IH Hin Hd) as [e He].
      destruct (Eff.for_each r _) as [l' res]. cbn in *. now exists e.
    + now exists e.
Qed.

(* ------------------------------------------------------------------ *)
(** ** The renderer as a whole *)

(** [plot_df] laid out by the place where it can stop: in the first two
    calls, in the loop, or in the calls up to the save. *)
Lemma plot_df_cases (df : option DataFrame) (name : string) (ps : PlotSpec) :
  plot_df be df name ps =
  match parse_order (list_ascii_of_string (column_order ps)) with
  | None => ([], Raise Py.ValueError)
  | Some ds =>
      match run be [EvRcParams (font_size ps);
                    EvFigure (width ps) (height ps)] with
      | (l0, Raise e) => (l0, Raise e)
      | (l0, Ok _) =>
          match Eff.for_each ds (plot_column be df (colors ps)) with
          | (l, Raise e) => (l0 ++ l, Raise e)
          | (l, Ok _) =>
              match run be (post_settings ps
                            ++ [EvSavefig
                                  (name ++ "." ++ image_data_type ps)%string
                                  (image_data_type ps)]) with
              | (l2, Raise e) => (l0 ++ l ++ l2, Raise e)
              | (l2, Ok _) => (l0 ++ l ++ l2 ++ [EvClose], Ok tt)
              end
          end
      end
  end.
Proof.
  unfold plot_df. rewrite comprehension_int.
  destruct (parse_order _) as [ds|]; [| reflexivity].
  unfold run, post_settings. cbn [Eff.bind].
  destruct (Eff.for_each ds _) as [l res].
  destruct (legend ps); cbn [Eff.for_each app]; unfold plt;
    repeat match goal with
           | |- context [refuses be ?ev] => destruct (refuses be ev)
           end;
    destruct res as [[]|e']; cbn;
    rewrite ?app_nil_r, <- ?app_assoc; reflexivity.
Qed.

Lemma saved_files_post_settings (ps : PlotSpec) :
  saved_files (post_settings ps) = [].
Proof. unfold post_settings. now destruct (legend ps). Qed.

(** The calls up to the save, when one of them is refused: what was made
    of them is a part of the post settings. *)
Lemma run_to_save_raise (ps : PlotSpec) (fname format : string)
                        (e : Py.Exc) :
  Eff.outcome (run be (post_settings ps ++ [EvSavefig fname format]))
  = Raise e ->
  exists pre rest,
    post_settings ps = pre ++ rest
    /\ run be (post_settings ps ++ [EvSavefig fname format])
       = (pre, Raise e).
Proof.
  intros H. destruct (run_raise be _ e H) as (pre & ev & rest & Heq & Hrun & _).
  exists pre. rewrite Hrun.
  destruct (exists_last (l := ev :: rest) ltac:(discriminate))
    as (mid & z & Hz).
  rewrite Hz, app_assoc in Heq. apply app_inj_tail in Heq as [Heq _].
  now exists mid.
Qed.

(** A rendering that completes has written one file, the one named
    [image_file_name.image_data_type]. *)
Lemma plot_df_saved_ok (df : option DataFrame) (name : string) (ps : PlotSpec) :
  Eff.outcome (plot_df be df name ps) = Ok tt ->
  saved_files (Eff.log (plot_df be df name ps))
  = [(name ++ "." ++ image_data_type ps)%string].
Proof.
  rewrite plot_df_cases.
  destruct (parse_order _) as [ds|]; [| discriminate].
  destruct (run be [_; _]) as [l0 [[]|e0]] eqn:H0; [| discriminate].
  assert (Hl0 : l0 = [EvRcParams (font_size ps);
                      EvFigure (width ps) (height ps)]).
  { match type of H0 with
    | run be ?evs = _ =>
        destruct (run_ok be evs) as [_ Hr]; [now rewrite H0|]
    end.
    rewrite H0 in Hr. now injection Hr. }
  pose proof (for_each_plot_column_log df (colors ps) ds) as Hl.
  destruct (Eff.for_each ds _) as [l [[]|e]]; [| discriminate].
  destruct (run be (post_settings ps ++ _)) as [l2 [[]|e2]] eqn:H2;
    [| discriminate].
  assert (Hl2 : l2 = post_settings ps
                     ++ [EvSavefig (name ++ "." ++ image_data_type ps)%string
                                   (image_data_type ps)]).
  { match type of H2 with
    | run be ?evs = _ =>
        destruct (run_ok be evs) as [_ Hr]; [now rewrite H2|]
    end.
    rewrite H2 in Hr. now injection Hr. }
  intros _. unfold Eff.log in *. cbn [fst] in *. subst l0 l2.
  rewrite !saved_files_app, Hl, saved_files_post_settings. reflexivity.
Qed.

(** A rendering that raises has written none. *)
Lemma plot_df_saved_raise (df : option DataFrame) (name : string)
                          (ps : PlotSpec) (e : Py.Exc) :
  Eff.outcome (plot_df be df name ps) = Raise e ->
  saved_files (Eff.log (plot_df be df name ps)) = [].
Proof.
  rewrite plot_df_cases.
  destruct (parse_order _) as [ds|]; [| reflexivity].
  destruct (run be [_; _]) as [l0 res0] eqn:H0.
  assert (Hl0 : saved_files l0 = []).
  { apply saved_files_none. intros f g Hin.
    assert (Hin' : In (EvSavefig f g) (Eff.log (run be [EvRcParams (font_size ps);
                       EvFigure (width ps) (height ps)])))
      by now rewrite H0.
    apply run_log_In in Hin'. cbn in Hin'. intuition discriminate. }
  destruct res0 as [[]|e0]; [| intros _; exact Hl0].
  pose proof (for_each_plot_column_log df (colors ps) ds) as Hl.
  destruct (Eff.for_each ds _) as [l [[]|e1]]; unfold Eff.log in *;
    cbn [fst] in *.
  2:{ intros _. now rewrite saved_files_app, Hl0, Hl. }
  destruct (run be (post_settings ps ++ _)) as [l2 [[]|e2]] eqn:H2;
    [discriminate|].
  intros _.
  destruct (run_to_save_raise ps (name ++ "." ++ image_data_type ps)
              (image_data_type ps) e2) as (pre & rest & Hpost & Hrun);
    [now rewrite H2|].
  rewrite H2 in Hrun. injection Hrun as ->.
  pose proof (saved_files_post_settings ps) as Hp.
  rewrite Hpost, saved_files_app in Hp. apply app_eq_nil in Hp as [Hp _].
  cbn [fst]. now rewrite !saved_files_app, Hl0, Hl, Hp.
Qed.

End RendererFacts.

Section RendererClaims.

Variable be : Backend.

(** C9. Whatever the table, an order string with a character that is not
    a decimal digit makes the renderer raise [ValueError] while the order
    string is converted: no event has been emitted by then, so no figure
    was created and no file written. *)
Theorem plot_df_order_not_digits
        (df : option DataFrame) (name : string) (ps : PlotSpec) (c : ascii) :
  In c (list_ascii_of_string (column_order ps)) ->
  Py.is_digit c = false ->
  plot_df be df name ps = ([], Raise Py.ValueError).
Proof.
  intros Hin Hc. rewrite plot_df_cases.
  now rewrite (parse_order_None _ c Hin Hc).
Qed.

(** C7. When a digit [d] of the order selects a column the guard accepts
    and [d - 1] is not below the length of the colour list, that pass of
    the loop raises [IndexError] without drawing, and the renderer as a
    whole ends in an exception and writes no file. *)
Theorem plot_df_color_list_too_short
        (df : DataFrame) (name : string) (ps : PlotSpec) (c : ascii) (d : Z) :
  In c (list_ascii_of_string (column_order ps)) ->
  Py.int_of_char c = Some d ->
  (d <= ncols df - 1)%Z ->
  (Z.of_nat (List.length (colors ps)) <= d - 1)%Z ->
  plot_column be (Some df) (colors ps) d = ([], Raise Py.IndexError)
  /\ (exists e, Eff.outcome (plot_df be (Some df) name ps) = Raise e)
  /\ saved_files (Eff.log (plot_df be (Some df) name ps)) = []
  /\ plotted (Eff.log (plot_column be (Some df) (colors ps) d)) = [].
Proof.
  intros Hin Hc Hd Hlen.
  pose proof (int_of_char_range c d Hc) as Hr.
  assert (Hcol : plot_column be (Some df) (colors ps) d
                 = ([], Raise Py.IndexError)).
  { destruct (plot_column_guarded be df (colors ps) d ltac:(lia))
      as (x & y & label & _ & _ & _ & ->).
    now rewrite (index_past_end (colors ps) (d - 1) Hlen). }
  assert (Hraise : exists e,
             Eff.outcome (plot_df be (Some df) name ps) = Raise e).
  { rewrite plot_df_cases.
    destruct (parse_order _) as [ds|] eqn:Hp; [| now exists Py.ValueError].
    destruct (run be [_; _]) as [l0 [[]|e0]]; [| now exists e0].
    destruct (for_each_plot_column_raises be df (colors ps) ds d
                (parse_order_In _ _ c d Hp Hin Hc) Hcol) as [e He].
    destruct (Eff.for_each ds _) as [l [[]|e']]; [discriminate|].
    now exists e'. }
  repeat split; try assumption.
  - destruct Hraise as [e He]. exact (plot_df_saved_raise be _ _ _ e He).
  - now rewrite Hcol.
Qed.

(** The renderer on an order of one digit, once the backend takes the
    calls around the loop. *)
Lemma plot_df_one_digit (df : DataFrame) (name : string) (ps : PlotSpec)
                        (c : ascii) (d : Z) :
  column_order ps = String c EmptyString ->
  Py.int_of_char c = Some d ->
  accepts be ([EvRcParams (font_size ps); EvFigure (width ps) (height ps)]
              ++ post_settings ps
              ++ [EvSavefig (name ++ "." ++ image_data_type ps)%string
                            (image_data_type ps)]) = true ->
  plot_df be (Some df) name ps =
  match plot_column be (Some df) (colors ps) d with
  | (l, Ok _) =>
      ([EvRcParams (font_size ps); EvFigure (width ps) (height ps)]
       ++ l ++ post_settings ps
       ++ [EvSavefig (name ++ "." ++ image_data_type ps)%string
                     (image_data_type ps); EvClose],
       Ok tt)
  | (l, Raise e) =>
      ([EvRcParams (font_size ps); EvFigure (width ps) (height ps)] ++ l,
       Raise e)
  end.
Proof.
  intros Ho Hc Hacc. unfold accepts in Hacc.
  rewrite forallb_app in Hacc. apply andb_true_iff in Hacc as [H0 H2].
  rewrite plot_df_cases, Ho.
  cbn [list_ascii_of_string parse_order]. rewrite Hc.
  rewrite (run_accepts be _ H0), (run_accepts be _ H2).
  cbn [Eff.for_each]. unfold Eff.bind.
  destruct (plot_column be (Some df) (colors ps) d) as [l [[]|e]];
    cbn; rewrite ?app_nil_r, <- ?app_assoc; reflexivity.
Qed.

(** C5, as the code has it. For a digit [d] of the order, the pass of the
    loop is silently skipped exactly when [d] is at least the number of
    columns, that is when [d] exceeds the last column position
    [len(df.columns) - 1]. A smaller [d] is taken up: [IndexError] is
    raised when the colour subscript [d - 1] is out of range; otherwise
    [plt.plot] is called, and the series is drawn when the backend takes
    the call (a colour it knows), its exception raised when it does not.
    With the order ["9"] and a table of four columns, a rendering whose
    other calls the backend takes completes, draws nothing and writes its
    file. *)
Theorem column_guard (df : DataFrame) (cl : list string) :
  (forall c d, Py.int_of_char c = Some d ->
     (silently_skipped be df cl d <-> (ncols df <= d)%Z))
  /\ (forall c d, Py.int_of_char c = Some d -> (d < ncols df)%Z ->
        exists x y label,
          Pandas.iloc_col df 0 = Some x /\
          Pandas.iloc_col df d = Some y /\
          Py.index (columns df) (d - 1) = Some label /\
          plot_column be (Some df) cl d =
            match Py.index cl (d - 1) with
            | None => ([], Raise Py.IndexError)
            | Some color =>
                match refuses be (EvPlot x y color label) with
                | None => ([EvPlot x y color label], Ok tt)
                | Some e => ([], Raise e)
                end
            end)
  /\ (forall name ps,
        ncols df = 4%Z -> column_order ps = "9" ->
        accepts be
          ([EvRcParams (font_size ps); EvFigure (width ps) (height ps)]
           ++ post_settings ps
           ++ [EvSavefig (name ++ "." ++ image_data_type ps)%string
                         (image_data_type ps)]) = true ->
        plot_df be (Some df) name ps =
          ([EvRcParams (font_size ps); EvFigure (width ps) (height ps)]
           ++ post_settings ps
           ++ [EvSavefig (name ++ "." ++ image_data_type ps)%string
                         (image_data_type ps); EvClose],
           Ok tt)).
Proof.
  assert (Hguard : forall c d, Py.int_of_char c = Some d ->
            (d < ncols df)%Z ->
            exists x y label,
              Pandas.iloc_col df 0 = Some x /\
              Pandas.iloc_col df d = Some y /\
              Py.index (columns df) (d - 1) = Some label /\
              plot_column be (Some df) cl d =
                match Py.index cl (d - 1) with
                | None => ([], Raise Py.IndexError)
                | Some color =>
                    match refuses be (EvPlot x y color label) with
                    | None => ([EvPlot x y color label], Ok tt)
                    | Some e => ([], Raise e)
                    end
                end).
  { intros c d Hc Hd. pose proof (int_of_char_range c d Hc) as Hr.
    destruct (plot_column_guarded be df cl d ltac:(lia))
      as (x & y & label & Hx & Hy & Hl & Hp).
    exists x, y, label. repeat split; assumption. }
  split; [| split; [exact Hguard|]].
  - intros c d Hc. split.
    + intros Hs. destruct (Z.le_gt_cases (ncols df) d) as [H | H]; [exact H|].
      destruct (Hguard c d Hc H) as (x & y & label & _ & _ & _ & Hp).
      unfold silently_skipped in Hs. rewrite Hs in Hp.
      destruct (Py.index cl (d - 1)); [| discriminate].
      destruct (refuses be _); discriminate.
    + apply plot_column_skipped.
  - intros name ps Hn Ho Hacc.
    rewrite (plot_df_one_digit df name ps "9"%char 9 Ho eq_refl Hacc).
    rewrite plot_column_skipped by lia. reflexivity.
Qed.

(** C10, as the code has it. On a table with at least one column the digit
    ['0'] is read as the index [0], passes the guard and is not a no-op.
    With an empty colour list the pass raises [IndexError]. Otherwise
    [plt.plot] is called with the first column against itself, the last
    colour of the list and the header name of the last column (the
    subscript [-1] reads both lists from the end), and the series is
    drawn when the backend takes the call. *)
Theorem order_zero_wraps (df : DataFrame) (cl : list string) :
  columns df <> [] ->
  Py.int_of_char "0"%char = Some 0%Z
  /\ (0 <=? ncols df - 1)%Z = true
  /\ ~ silently_skipped be df cl 0
  /\ (cl = [] -> plot_column be (Some df) cl 0 = ([], Raise Py.IndexError))
  /\ (cl <> [] ->
      exists x,
        Pandas.iloc_col df 0 = Some x
        /\ series_name x = hd "" (columns df)
        /\ plot_column be (Some df) cl 0
           = match refuses be (EvPlot x x (last cl "")
                                      (last (columns df) "")) with
             | None =>
                 ([EvPlot x x (last cl "") (last (columns df) "")], Ok tt)
             | Some e => ([], Raise e)
             end
        /\ forall name ps,
             colors ps = cl -> column_order ps = "0" ->
             accepts be
               ([EvRcParams (font_size ps); EvFigure (width ps) (height ps);
                 EvPlot x x (last cl "") (last (columns df) "")]
                ++ post_settings ps
                ++ [EvSavefig (name ++ "." ++ image_data_type ps)%string
                              (image_data_type ps)]) = true ->
             plot_df be (Some df) name ps =
               ([EvRcParams (font_size ps); EvFigure (width ps) (height ps);
                 EvPlot x x (last cl "") (last (columns df) "")]
                ++ post_settings ps
                ++ [EvSavefig (name ++ "." ++ image_data_type ps)%string
                              (image_data_type ps); EvClose],
                Ok tt)).
Proof.
  intros Hcols.
  assert (Hn : (0 <= 0 < ncols df)%Z).
  { unfold ncols. destruct (columns df); [contradiction | cbn; lia]. }
  destruct (plot_column_guarded be df cl 0 Hn)
    as (x & y & label & Hx & Hy & Hl & Hp).
  rewrite Hx in Hy. injection Hy as <-.
  change (0 - 1)%Z with (-1)%Z in *.
  rewrite (index_minus_one_last (columns df) "" Hcols) in Hl.
  injection Hl as <-.
  split; [reflexivity|]. split; [apply Z.leb_le; lia|]. split.
  { unfold silently_skipped. rewrite Hp. unfold plt.
    destruct (Py.index cl (-1)); [| discriminate].
    destruct (refuses be _); discriminate. }
  split.
  { intros ->. exact Hp. }
  intros Hcl. rewrite (index_minus_one_last cl "" Hcl) in Hp.
  exists x. split; [exact Hx|]. split.
  { destruct (iloc_col_in_range df 0 Hn) as [x' [Hx' Hname]].
    rewrite Hx in Hx'. injection Hx' as <-.
    destruct (columns df); [contradiction|]. cbn in Hname.
    now injection Hname as <-. }
  split; [exact Hp|].
  intros name ps Hc Ho Hacc.
  assert (Hplot : refuses be (EvPlot x x (last cl "") (last (columns df) ""))
                  = None).
  { cbn [accepts app forallb] in Hacc.
    apply andb_true_iff in Hacc as [_ Hacc].
    apply andb_true_iff in Hacc as [_ Hacc].
    apply andb_true_iff in Hacc as [Hacc _].
    now destruct (refuses be _). }
  assert (Hrest : accepts be
            ([EvRcParams (font_size ps); EvFigure (width ps) (height ps)]
             ++ post_settings ps
             ++ [EvSavefig (name ++ "." ++ image_data_type ps)%string
                           (image_data_type ps)]) = true).
  { cbn [accepts app forallb] in Hacc |- *.
    apply andb_true_iff in Hacc as [H1 Hacc].
    apply andb_true_iff in Hacc as [H2 Hacc].
    apply andb_true_iff in Hacc as [_ Hacc].
    now rewrite H1, H2. }
  rewrite (plot_df_one_digit df name ps "0"%char 0 Ho eq_refl Hrest).
  rewrite Hc, Hp. unfold plt. rewrite Hplot. reflexivity.
Qed.

End RendererClaims.
(* ------------------------------------------------------------------ *)
(** ** File discovery *)

(** Induction on a directory tree, with the hypothesis for every
    sub-directory. *)
Lemma DirTree_nested_ind (P : DirTree -> Prop) :
  P Unreadable ->
  (forall files subdirs,
      Forall (fun ns => P (snd ns)) subdirs -> P (Dir files subdirs)) ->
  forall t, P t.
Proof.
  intros HU HD. fix IH 1. intros [|files subdirs]; [exact HU|].
  apply HD. induction subdirs as [|[name sub] r IHr]; constructor.
  - exact (IH sub).
  - exact IHr.
Qed.

Lemma os_walk_Dir (top : string) (files : list string)
                  (subdirs : list (string * DirTree)) :
  os_walk top (Dir files subdirs)
  = (top, files)
    :: flat_map (fun ns => os_walk (Py.os_path_join top (fst ns)) (snd ns))
                subdirs.
Proof.
  cbn [os_walk]. f_equal.
  induction subdirs as [|[name sub] r IH]; [reflexivity|].
  cbn [flat_map fst snd]. now rewrite IH.
Qed.

(** The walk lists exactly the files under its root. *)
Lemma os_walk_file_under (t : DirTree) :
  forall top root file,
    (exists files, In (root, files) (os_walk top t) /\ In file files)
    <-> file_under top t root file.
Proof.
  induction t as [|files subdirs IH] using DirTree_nested_ind;
    intros top root file.
  - split; [intros (fl & [] & _) | intros H; inversion H].
  - rewrite os_walk_Dir. rewrite Forall_forall in IH. split.
    + intros (fl & [Heq | Hin] & Hf).
      * injection Heq as <- <-. now constructor.
      * apply in_flat_map in Hin as ([name sub] & Hsub & Hin).
        cbn [fst snd] in Hin.
        apply (file_below top files subdirs name sub); [exact Hsub|].
        apply (IH (name, sub) Hsub). now exists fl.
    + intros H. inversion H as [? ? ? ? Hf | ? ? ? name sub ? ? Hsub Hu]; subst.
      * exists files. split; [now left | exact Hf].
      * apply (IH (name, sub) Hsub) in Hu as (fl & Hin & Hf).
        exists fl. split; [| exact Hf].
        right. apply in_flat_map. exists (name, sub). now split.
Qed.

Lemma scan_files_spec (root : string) (files txt_files : list string) :
  scan_files root files txt_files
  = txt_files ++ map (Py.os_path_join root) (filter is_txt files).
Proof.
  revert txt_files. induction files as [|file r IH]; intros acc.
  - cbn. now rewrite app_nil_r.
  - cbn [scan_files filter]. unfold is_txt at 1.
    destruct (Py.endswith file ".txt"); rewrite IH; [| reflexivity].
    cbn [map]. now rewrite <- app_assoc.
Qed.

Lemma scan_walk_spec (w : list (string * list string))
                     (txt_files : list string) :
  scan_walk w txt_files
  = txt_files
    ++ map (fun rf => Py.os_path_join (fst rf) (snd rf))
           (filter (fun rf => is_txt (snd rf)) (walk_entries w)).
Proof.
  revert txt_files. induction w as [|[root files] r IH]; intros acc.
  - cbn. now rewrite app_nil_r.
  - cbn [scan_walk]. rewrite IH, scan_files_spec, <- app_assoc. f_equal.
    unfold walk_entries. cbn [flat_map fst snd].
    rewrite filter_app, map_app. f_equal.
    induction files as [|file fl IHf]; [reflexivity|].
    cbn [map filter snd]. destruct (is_txt file); cbn [map fst snd];
      now rewrite IHf.
Qed.

Lemma In_walk_entries (w : list (string * list string)) (root file : string) :
  In (root, file) (walk_entries w)
  <-> exists files, In (root, files) w /\ In file files.
Proof.
  unfold walk_entries. rewrite in_flat_map. split.
  - intros ([r fl] & Hw & Hin). cbn [fst snd] in Hin.
    apply in_map_iff in Hin as (f & [= <- <-] & Hf). now exists fl.
  - intros (fl & Hw & Hf). exists (root, fl). split; [exact Hw|].
    cbn [fst snd]. now apply in_map.
Qed.

Lemma main_no_files (be : Backend) (fs : FileSystem) (dir : string)
                    (ps : PlotSpec) :
  get_txt_files fs dir = [] -> main be fs dir ps = ([], Ok tt).
Proof. intros H. unfold main. now rewrite H. Qed.

(** C8. The discoverer returns, in the order of the walk, the joined paths
    of the files whose name ends with [.txt]: a path is returned exactly
    when it is that of such a file under the root. With no such file, or a
    root that cannot be listed, the result is empty and the batch emits
    nothing: no image is written. *)
Theorem get_txt_files_spec (fs : FileSystem) (dir : string) :
  get_txt_files fs dir
  = map (fun rf => Py.os_path_join (fst rf) (snd rf))
        (filter (fun rf => is_txt (snd rf))
                (walk_entries (os_walk dir (fs_tree fs dir))))
  /\ (forall p,
        In p (get_txt_files fs dir)
        <-> exists root file,
              file_under dir (fs_tree fs dir) root file
              /\ Py.endswith file ".txt" = true
              /\ p = Py.os_path_join root file)
  /\ ((forall root file,
          file_under dir (fs_tree fs dir) root file ->
          Py.endswith file ".txt" = false) ->
      get_txt_files fs dir = []
      /\ forall be ps, main be fs dir ps = ([], Ok tt))
  /\ (fs_tree fs dir = Unreadable ->
      get_txt_files fs dir = []
      /\ forall be ps, main be fs dir ps = ([], Ok tt)).
Proof.
  assert (Heq : get_txt_files fs dir
                = map (fun rf => Py.os_path_join (fst rf) (snd rf))
                      (filter (fun rf => is_txt (snd rf))
                         (walk_entries (os_walk dir (fs_tree fs dir))))).
  { unfold get_txt_files. now rewrite scan_walk_spec. }
  assert (Hin : forall p,
             In p (get_txt_files fs dir)
             <-> exists root file,
                   file_under dir (fs_tree fs dir) root file
                   /\ Py.endswith file ".txt" = true
                   /\ p = Py.os_path_join root file).
  { intros p. rewrite Heq, in_map_iff. split.
    - intros ([root file] & Hp & Hf). cbn [fst snd] in Hp.
      apply filter_In in Hf as [Hw Ht]. cbn [snd] in Ht.
      apply In_walk_entries, os_walk_file_under in Hw.
      exists root, file. now repeat split.
    - intros (root & file & Hu & Ht & ->).
      exists (root, file). split; [reflexivity|].
      apply filter_In. split; [| exact Ht].
      now apply In_walk_entries, os_walk_file_under. }
  split; [exact Heq|]. split; [exact Hin|]. split.
  - intros Hnone.
    assert (He : get_txt_files fs dir = []).
    { destruct (get_txt_files fs dir) as [|p r] eqn:E; [reflexivity|].
      destruct (proj1 (Hin p) (or_introl eq_refl))
        as (root & file & Hu & Ht & _).
      rewrite (Hnone root file Hu) in Ht. discriminate. }
    split; [exact He|]. intros be ps. now apply main_no_files.
  - intros Hu.
    assert (He : get_txt_files fs dir = []).
    { unfold get_txt_files. now rewrite Hu. }
    split; [exact He|]. intros be ps. now apply main_no_files.
Qed.

(* ------------------------------------------------------------------ *)
(** ** The batch *)

Lemma basename_no_sep (p : string) :
  Py.has_sep (Py.os_path_basename p) = false.
Proof.
  induction p as [|c r IH]; [reflexivity|].
  cbn [Py.os_path_basename].
  destruct (Py.has_sep r) eqn:Hr; [exact IH|].
  destruct (Ascii.eqb c Py.sep) eqn:Hc; [exact Hr|].
  cbn [Py.has_sep]. now rewrite Hc, Hr.
Qed.

(** Loading never raises and writes no image. *)
Lemma load_txt_total (fs : FileSystem) (file_path : string) :
  exists l o, load_txt fs file_path = (l, Ok o) /\ saved_files l = [].
Proof.
  unfold load_txt.
  destruct (pd_read_csv fs file_path) as [df|e].
  - now exists [], (Some (Pandas.dropna df)).
  - destruct e; eexists; exists None; split; reflexivity.
Qed.

Section Batch.

Variable be : Backend.
Variable fs : FileSystem.
Variable ps : PlotSpec.

Lemma body_saved_ok (tf : string) :
  Eff.outcome (main_body be fs ps tf) = Ok tt ->
  saved_files (Eff.log (main_body be fs ps tf)) = [image_name ps tf].
Proof.
  unfold main_body, image_name, Eff.bind.
  destruct (load_txt_total fs tf) as (l & o & -> & Hl).
  pose proof (plot_df_saved_ok be o (Py.os_path_basename tf) ps) as Hp.
  destruct (plot_df be o (Py.os_path_basename tf) ps) as [l' r].
  unfold Eff.outcome, Eff.log in *. cbn [fst snd] in *.
  intros Hr. now rewrite saved_files_app, Hl, (Hp Hr).
Qed.

Lemma batch_saved_ok (txt_files : list string) :
  Eff.outcome (Eff.for_each txt_files (main_body be fs ps)) = Ok tt ->
  saved_files (Eff.log (Eff.for_each txt_files (main_body be fs ps)))
  = map (image_name ps) txt_files.
Proof.
  induction txt_files as [|tf r IH]; [reflexivity|].
  cbn [Eff.for_each map]. unfold Eff.bind.
  pose proof (body_saved_ok tf) as Hb.
  destruct (main_body be fs ps tf) as [l [[]|e]]; [| discriminate].
  destruct (Eff.for_each r (main_body be fs ps)) as [l' res].
  unfold Eff.outcome, Eff.log in *. cbn [fst snd] in *.
  intros Hr. now rewrite saved_files_app, (Hb eq_refl), (IH Hr).
Qed.

(** C2, as the code has it. For a file that loaded and whose rendering
    completes, one image is written: its name is the base name of the
    input path, extension included, followed by a dot and the image
    format, and holds no directory part. A batch that completes has
    written one such image per discovered file, in order. *)
Theorem image_written_per_file :
  (forall tf df,
      Eff.outcome (load_txt fs tf) = Ok (Some df) ->
      Eff.outcome (plot_df be (Some df) (Py.os_path_basename tf) ps)
      = Ok tt ->
      saved_files
        (Eff.log (plot_df be (Some df) (Py.os_path_basename tf) ps))
      = [image_name ps tf]
      /\ image_name ps tf
         = (Py.os_path_basename tf ++ "." ++ image_data_type ps)%string
      /\ Py.has_sep (Py.os_path_basename tf) = false)
  /\ (forall dir,
        Eff.outcome (main be fs dir ps) = Ok tt ->
        saved_files (Eff.log (main be fs dir ps))
        = map (image_name ps) (get_txt_files fs dir)).
Proof.
  split.
  - intros tf df _ Hok. split; [| split].
    + now apply plot_df_saved_ok.
    + reflexivity.
    + apply basename_no_sep.
  - intros dir. exact (batch_saved_ok (get_txt_files fs dir)).
Qed.

End Batch.

(** Rendering [None]: with a first digit in the order, the loop asks the
    missing table for its columns. *)
Lemma plot_df_None (be : Backend) (name : string) (ps : PlotSpec)
                   (d : Z) (ds : list Z) :
  parse_order (list_ascii_of_string (column_order ps)) = Some (d :: ds) ->
  accepts be [EvRcParams (font_size ps);
              EvFigure (width ps) (height ps)] = true ->
  plot_df be None name ps
  = ([EvRcParams (font_size ps); EvFigure (width ps) (height ps)],
     Raise Py.AttributeError).
Proof.
  intros Hp Hacc. rewrite plot_df_cases, Hp, (run_accepts be _ Hacc).
  reflexivity.
Qed.

(** C1, on a directory with one file that cannot be read and one that
    can: both are discovered, the first loads as [None] after its failure
    is printed, the renderer is called on it all the same and raises
    [AttributeError]; the batch stops there, before the second file, and
    no image is written. *)
Theorem main_stops_at_unloadable_file :
  get_txt_files Sample.fs_bad_good "data" = ["data/bad.txt"; "data/good.txt"]
  /\ load_txt Sample.fs_bad_good "data/bad.txt"
     = ([EvPrint (MsgLoadError Py.OSError)], Ok None)
  /\ (exists df, load_txt Sample.fs_bad_good "data/good.txt"
                 = ([], Ok (Some df)))
  /\ main Sample.permissive Sample.fs_bad_good "data" main_defaults
     = ([EvPrint (MsgLoadError Py.OSError); EvRcParams 20; EvFigure 10 6],
        Raise Py.AttributeError)
  /\ saved_files
       (Eff.log (main Sample.permissive Sample.fs_bad_good "data"
                      main_defaults)) = [].
Proof.
  repeat split; try (vm_compute; reflexivity).
  eexists. vm_compute. reflexivity.
Qed.

(** C3, on the command line
    [colocgraph.py data --image_data_type png --order 1 --x_label Distance
    --y_label Intensity]: the script passes none of the three values to
    [main], whatever they are; the image is written as [svg] and both axis
    labels are unset. *)
Theorem script_drops_format_and_labels :
  (forall be fs d t o w h f l x y t' x' y',
      script be fs (mkNamespace d t o w h f l x y)
      = script be fs (mkNamespace d t' o w h f l x' y'))
  /\ script Sample.permissive Sample.fs_one
       (mkNamespace "data" (Some "png") "1" 4 2 9 false
                    (Some "Distance") (Some "Intensity"))
     = ([EvRcParams 9; EvFigure 4 2;
         EvPlot (mkSeries "Distance" [Some "0.0"; Some "0.5"])
                (mkSeries "A" [Some "10"; Some "11"]) "red" "Distance";
         EvXLabel None; EvYLabel None; EvTightLayout;
         EvSavefig "sample.txt.svg" "svg"; EvClose],
        Ok tt).
Proof.
  split; [reflexivity | vm_compute; reflexivity].
Qed.

(** The call of [plt.plot] for [d >= 1] shows column [d] of the table
    (counting from zero) under the header name of column [d - 1]. *)
Lemma plot_column_drawn_columns (be : Backend) (df : DataFrame)
      (cl : list string) (d : Z) (color : string) :
  (1 <= d < ncols df)%Z ->
  Py.index cl (d - 1) = Some color ->
  exists x y label,
    plot_column be (Some df) cl d = plt be (EvPlot x y color label)
    /\ nth_error (columns df) (Z.to_nat d) = Some (series_name y)
    /\ nth_error (columns df) (Z.to_nat (d - 1)) = Some label.
Proof.
  intros Hd Hc.
  destruct (plot_column_guarded be df cl d ltac:(lia))
    as (x & y & label & _ & Hy & Hl & Hp).
  destruct (iloc_col_in_range df d ltac:(lia)) as (y' & Hy' & Hname).
  rewrite Hy in Hy'. injection Hy' as <-.
  destruct (index_in_range (columns df) (d - 1)) as (l' & Hl' & Hnth);
    [unfold ncols in Hd; lia|].
  rewrite Hl in Hl'. injection Hl' as <-.
  exists x, y, label. rewrite Hp, Hc. now repeat split.
Qed.

(** C4, on the table with header [Distance A B C] and the digit [1]: the
    series drawn is column [A], in the first colour, and the legend label
    is [Distance], the header of the column before it. *)
Theorem legend_label_is_previous_header :
  plot_column Sample.permissive (Some Sample.df) ["red"; "green"; "blue"] 1
  = ([EvPlot (mkSeries "Distance" [Some "0.0"; Some "0.5"])
             (mkSeries "A" [Some "10"; Some "11"]) "red" "Distance"],
     Ok tt)
  /\ Py.index ["red"; "green"; "blue"] (1 - 1) = Some "red"
  /\ Py.index (columns Sample.df) 1 = Some "A"
  /\ Py.index (columns Sample.df) (1 - 1) = Some "Distance".
Proof. repeat split; vm_compute; reflexivity. Qed.


(* ------------------------------------------------------------------ *)
(** ** Table loading *)

(** *** The parser at sample texts *)

(** Lines ended by a carriage return and a line feed; a field [NA] and a
    field left out at the end of a row are missing values. *)
Example read_csv_crlf :
  Pandas.read_csv Sample.text_crlf 1
  = Ok {| columns := ["Distance"; "A"; "B"; "C"];
          rows := [ [Some "0.0"; Some "10"; Some "20"; Some "30"];
                    [Some "0.5"; Some "11"; None; Some "31"];
                    [Some "1.0"; Some "12"; None; None];
                    [Some "1.5"; Some "13"; Some "23"; Some "33"] ] |}.
Proof. reflexivity. Qed.

(** Lines ended by a carriage return alone. *)
Example read_csv_cr :
  Pandas.read_csv Sample.text_cr 1
  = Ok {| columns := ["A"; "B"]; rows := [[Some "1"; Some "2"]] |}.
Proof. reflexivity. Qed.

(** A blank line between the rows is passed over; an empty field is a
    missing value. *)
Example read_csv_blank :
  Pandas.read_csv
    (Sample.text ++ "    " ++ Sample.nl ++ Sample.nl
     ++ "1.0" ++ Sample.ht ++ "12" ++ Sample.ht ++ Sample.ht ++ "32"
     ++ Sample.nl) 1
  = Ok {| columns := ["Distance"; "A"; "B"; "C"];
          rows := [ [Some "0.0"; Some "10"; Some "20"; Some "30"];
                    [Some "0.5"; Some "11"; Some "21"; Some "31"];
                    [Some "1.0"; Some "12"; None; Some "32"] ] |}.
Proof. reflexivity. Qed.

(** A name met again gets a suffix, a missing name is made up. *)
Example read_csv_names :
  Pandas.name_columns ["Distance"; "A"; "A"] = ["Distance"; "A"; "A.1"]
  /\ Pandas.name_columns ["Distance"; ""; "B"]
     = ["Distance"; "Unnamed: 1"; "B"]
  /\ Pandas.read_csv Sample.text_unnamed 1
     = Ok {| columns := ["Distance"; "Unnamed: 1"; "B"];
             rows := [[Some "0.0"; Some "10"; Some "20"]] |}.
Proof. repeat split. Qed.

(** A first data row wider than the header: its leading field is a row
    label, and the rows are as wide as that row. *)
Example read_csv_row_labels :
  Pandas.read_csv Sample.text_labelled 1
  = Ok {| columns := ["A"; "B"];
          rows := [ [Some "10"; Some "20"];
                    [Some "11"; Some "21"];
                    [Some "12"; None] ] |}.
Proof. reflexivity. Qed.

(** A later row wider than the first, and a text without header. *)
Example read_csv_errors :
  Pandas.read_csv Sample.text_ragged 1 = Raise Py.ParserError
  /\ Pandas.read_csv ("profile 1" ++ Sample.nl) 1 = Raise Py.EmptyDataError
  /\ Pandas.read_csv "" 1 = Raise Py.EmptyDataError.
Proof. repeat split. Qed.

Lemma split_nonempty (d : ascii) (s : string) : Pandas.split d s <> [].
Proof.
  destruct s as [|c r]; cbn [Pandas.split]; [discriminate|].
  destruct (Ascii.eqb c d); [discriminate|].
  destruct (Pandas.split d r); discriminate.
Qed.

(** The text up to the first line end is the first line; what follows is
    cut into lines on its own. *)
Lemma split_first_line (l0 rest : string) (eol : ascii) :
  eol = Pandas.lf \/ eol = Pandas.cr ->
  has_char Pandas.lf l0 = false ->
  has_char Pandas.cr l0 = false ->
  Pandas.split_lines (l0 ++ String eol rest)
  = l0 :: Pandas.lines_from (Ascii.eqb eol Pandas.cr) rest.
Proof.
  intros Heol. unfold Pandas.split_lines.
  induction l0 as [|c r IH]; intros Hlf Hcr.
  - destruct Heol as [-> | ->]; reflexivity.
  - unfold has_char in Hlf, Hcr. cbn [list_ascii_of_string existsb] in Hlf, Hcr.
    apply orb_false_iff in Hlf as [Hc1 Hr1].
    apply orb_false_iff in Hcr as [Hc2 Hr2].
    cbn [append Pandas.lines_from].
    rewrite Ascii.eqb_sym in Hc1. rewrite Ascii.eqb_sym in Hc2.
    rewrite Hc1, Hc2. now rewrite (IH Hr1 Hr2).
Qed.

(** [read_csv] with [skiprows=1] does not look at the first line. *)
Lemma read_csv_first_line_discarded (l0 l0' eol rest : string) :
  In eol line_ends ->
  plain_line l0 = true -> plain_line l0' = true ->
  Pandas.read_csv (l0 ++ eol ++ rest) 1
  = Pandas.read_csv (l0' ++ eol ++ rest) 1.
Proof.
  intros Heol H H'. unfold plain_line in H, H'.
  apply andb_true_iff in H as [H _]. apply andb_true_iff in H as [H1 H2].
  apply andb_true_iff in H' as [H' _].
  apply andb_true_iff in H' as [H1' H2'].
  apply negb_true_iff in H1, H2, H1', H2'.
  unfold Pandas.read_csv.
  destruct Heol as [<- | [<- | []]]; cbn [append].
  - now rewrite (split_first_line l0 rest Pandas.lf (or_introl eq_refl) H1 H2),
      (split_first_line l0' rest Pandas.lf (or_introl eq_refl) H1' H2').
  - now rewrite (split_first_line l0 _ Pandas.cr (or_intror eq_refl) H1 H2),
      (split_first_line l0' _ Pandas.cr (or_intror eq_refl) H1' H2').
Qed.

Lemma pad_full (n : nat) (r : list cell) :
  List.length r = n -> Pandas.pad n r = r.
Proof.
  intros <-. unfold Pandas.pad. rewrite Nat.sub_diag. apply app_nil_r.
Qed.

(** *** Column names that need no renaming *)

Lemma filter_all {A} (f : A -> bool) (l : list A) :
  (forall x, In x l -> f x = true) -> filter f l = l.
Proof.
  induction l as [|a r IH]; intros H; [reflexivity|].
  cbn [filter]. rewrite (H a (or_introl eq_refl)).
  now rewrite (IH (fun x Hx => H x (or_intror Hx))).
Qed.

Lemma filter_none {A} (f : A -> bool) (l : list A) :
  (forall x, In x l -> f x = false) -> filter f l = [].
Proof.
  induction l as [|a r IH]; intros H; [reflexivity|].
  cbn [filter]. rewrite (H a (or_introl eq_refl)).
  exact (IH (fun x Hx => H x (or_intror Hx))).
Qed.

Lemma map_nth_seq {A} (l : list A) (d : A) :
  map (fun i => nth i l d) (seq 0 (List.length l)) = l.
Proof.
  induction l as [|a r IH]; [reflexivity|].
  cbn [List.length seq map nth]. f_equal.
  rewrite <- seq_shift, map_map. exact IH.
Qed.

Lemma nodupb_NoDup (l : list string) : nodupb l = true -> NoDup l.
Proof.
  induction l as [|a r IH]; intros H; [constructor|].
  cbn [nodupb] in H. apply andb_true_iff in H as [Ha Hr].
  constructor; [| now apply IH].
  intros Hin. apply negb_true_iff in Ha.
  assert (Ht : existsb (String.eqb a) r = true).
  { apply existsb_exists. exists a. split; [exact Hin | apply String.eqb_refl]. }
  congruence.
Qed.

Lemma count_of_set_count_other (counts : list (string * nat))
                               (a b : string) (n : nat) :
  a <> b ->
  Pandas.count_of (Pandas.set_count counts a n) b = Pandas.count_of counts b.
Proof.
  intros Hab. unfold Pandas.count_of, Pandas.set_count. cbn [find fst].
  apply String.eqb_neq in Hab. rewrite Hab.
  induction counts as [|[k v] r IH]; [reflexivity|].
  cbn [filter find fst]. destruct (String.eqb k a) eqn:Hka; cbn [negb].
  - apply String.eqb_eq in Hka. subst k. rewrite Hab. exact IH.
  - cbn [find fst]. destruct (String.eqb k b); [reflexivity | exact IH].
Qed.

Lemma set_nth_same {A} (l : list A) (i : nat) (d : A) :
  Pandas.set_nth i (nth i l d) l = l.
Proof.
  revert i. induction l as [|a r IH]; intros [|i]; cbn; try reflexivity.
  now rewrite IH.
Qed.

Lemma set_nth_length {A} (i : nat) (a : A) (l : list A) :
  List.length (Pandas.set_nth i a l) = List.length l.
Proof.
  revert i. induction l as [|x r IH]; intros [|i]; cbn; try reflexivity.
  now rewrite IH.
Qed.

Lemma mangle_zero (fuel : nat) (header : list string) (old_col col : string)
                  (counts : list (string * nat)) :
  Pandas.mangle fuel header old_col col 0 counts = (col, 0%nat, counts).
Proof. destruct fuel; reflexivity. Qed.

(** Names met for the first time are kept. *)
Lemma dedup_keeps (names : list string) :
  NoDup names ->
  forall n k counts,
    (k + n = List.length names)%nat ->
    (forall j, (k <= j < List.length names)%nat ->
               Pandas.count_of counts (nth j names "") = 0%nat) ->
    forall fuel,
    fst (fold_left (Pandas.dedup_step fuel) (seq k n) (names, counts))
    = names.
Proof.
  intros Hnd. induction n as [|n IH]; intros k counts Hk Hc fuel;
    [reflexivity|].
  cbn [seq fold_left]. unfold Pandas.dedup_step at 2. cbv beta iota zeta.
  rewrite (Hc k ltac:(lia)), mangle_zero, set_nth_same.
  apply IH; [lia|].
  intros j Hj. rewrite count_of_set_count_other; [apply Hc; lia|].
  intros Heq. apply (proj1 (NoDup_nth names "") Hnd) in Heq; lia.
Qed.

Lemma name_columns_keeps (names : list string) :
  forallb (fun name => negb (String.eqb name "")) names = true ->
  nodupb names = true ->
  Pandas.name_columns names = names.
Proof.
  intros Hne Hnd. rewrite forallb_forall in Hne.
  assert (Hun : forall i, In i (seq 0 (List.length names)) ->
                  String.eqb (nth i names "") "" = false).
  { intros i Hi. apply in_seq in Hi. apply negb_true_iff, Hne, nth_In. lia. }
  unfold Pandas.name_columns, Pandas.rename_columns.
  rewrite (filter_all _ _ (fun i Hi => proj2 (negb_true_iff _) (Hun i Hi))).
  rewrite (filter_none _ _ Hun), app_nil_r.
  rewrite (map_ext_in _ (fun i => nth i names "")).
  2:{ intros i Hi. now rewrite (Hun i Hi). }
  rewrite map_nth_seq.
  apply dedup_keeps; [now apply nodupb_NoDup | lia |].
  intros j _. reflexivity.
Qed.

(** *** The renaming loop ends within its fuel *)

Lemma append_inj_l (p x y : string) : (p ++ x = p ++ y)%string -> x = y.
Proof.
  induction p as [|c p IH]; cbn [append]; [trivial|].
  intros [= H]. exact (IH H).
Qed.

Lemma to_uint_not_Nil (n : nat) : Nat.to_uint n <> Decimal.Nil.
Proof.
  intros H. pose proof (DecimalNat.Unsigned.to_of (Nat.to_uint n)) as E.
  rewrite DecimalNat.Unsigned.of_to, H in E. discriminate E.
Qed.

Lemma str_of_nat_inj (a b : nat) :
  Pandas.str_of_nat a = Pandas.str_of_nat b -> a = b.
Proof.
  unfold Pandas.str_of_nat. intros H.
  apply DecimalNat.Unsigned.to_uint_inj.
  apply (f_equal NilZero.uint_of_string) in H.
  rewrite !NilZero.usu in H by apply to_uint_not_Nil.
  now injection H.
Qed.

Lemma suffixed_inj (old_col : string) (a b : nat) :
  (old_col ++ "." ++ Pandas.str_of_nat a
   = old_col ++ "." ++ Pandas.str_of_nat b)%string -> a = b.
Proof.
  intros H. apply append_inj_l in H. cbn [append] in H.
  injection H as H. exact (str_of_nat_inj a b H).
Qed.

Lemma count_of_set_count_same (counts : list (string * nat)) (a : string)
                              (n : nat) :
  Pandas.count_of (Pandas.set_count counts a n) a = n.
Proof.
  unfold Pandas.count_of, Pandas.set_count. cbn [find fst].
  now rewrite String.eqb_refl.
Qed.

Lemma count_of_set_count (counts : list (string * nat)) (a c : string)
                         (n : nat) :
  Pandas.count_of (Pandas.set_count counts a n) c <> 0%nat ->
  c = a \/ Pandas.count_of counts c <> 0%nat.
Proof.
  destruct (String.eqb a c) eqn:E.
  - apply String.eqb_eq in E. now left.
  - apply String.eqb_neq in E. rewrite count_of_set_count_other by exact E.
    now right.
Qed.

Lemma mem_In (col : string) (l : list string) :
  Pandas.mem col l = true <-> In col l.
Proof.
  unfold Pandas.mem. rewrite existsb_exists. split.
  - intros (x & Hx & E). apply String.eqb_eq in E. now subst.
  - intros H. exists col. split; [exact H | apply String.eqb_refl].
Qed.

(** The names tried so far are in the header and all different, so there
    are no more of them than columns: with a round left for each column
    and two more, the loop ends with its count at zero, and more fuel
    changes nothing. *)
Lemma mangle_fuel (header : list string) (old_col : string) :
  In old_col header ->
  forall f1 f2 seen col cur counts,
    NoDup seen -> incl seen header ->
    (forall s, In s seen ->
       exists j, (j < cur)%nat
                 /\ s = (old_col ++ "." ++ Pandas.str_of_nat j)%string) ->
    (forall c, Pandas.count_of counts c <> 0%nat -> In c header) ->
    (List.length header + 2 <= f1 + List.length seen)%nat ->
    (List.length header + 2 <= f2 + List.length seen)%nat ->
    Pandas.mangle f1 header old_col col cur counts
    = Pandas.mangle f2 header old_col col cur counts
    /\ snd (fst (Pandas.mangle f1 header old_col col cur counts)) = 0%nat
    /\ forall c,
         Pandas.count_of
           (snd (Pandas.mangle f1 header old_col col cur counts)) c
         <> 0%nat ->
         (c = old_col /\ cur <> 0%nat) \/ Pandas.count_of counts c <> 0%nat.
Proof.
  intros Hold. induction f1 as [|f1 IH];
    intros f2 seen col cur counts Hnd Hincl Hseen Hinv H1 H2.
  { pose proof (NoDup_incl_length Hnd Hincl). lia. }
  destruct cur as [|cur].
  { rewrite !mangle_zero. cbn. repeat split; auto. }
  destruct f2 as [|f2].
  { pose proof (NoDup_incl_length Hnd Hincl). lia. }
  cbn [Pandas.mangle].
  set (counts' := Pandas.set_count counts old_col (S cur + 1)).
  set (col' := (old_col ++ "." ++ Pandas.str_of_nat (S cur))%string).
  assert (Hinv' : forall c, Pandas.count_of counts' c <> 0%nat ->
                            In c header).
  { intros c Hc. apply count_of_set_count in Hc as [-> | Hc]; auto. }
  destruct (Pandas.mem col' header) eqn:Hmem.
  - apply mem_In in Hmem.
    destruct (IH f2 (col' :: seen) col' (S cur + 1)%nat counts')
      as (Heq & Hz & Hc); try assumption.
    + constructor; [| exact Hnd].
      intros Hin. destruct (Hseen col' Hin) as (j & Hj & E).
      apply suffixed_inj in E. lia.
    + intros s [<- | Hs]; [exact Hmem | now apply Hincl].
    + intros s [<- | Hs].
      * exists (S cur). split; [lia | reflexivity].
      * destruct (Hseen s Hs) as (j & Hj & E). exists j. split; [lia | exact E].
    + cbn [List.length]. lia.
    + cbn [List.length]. lia.
    + split; [exact Heq|]. split; [exact Hz|].
      intros c Hcc. apply Hc in Hcc as [[-> _] | Hcc];
        [left; split; [reflexivity | discriminate]|].
      apply count_of_set_count in Hcc as [-> | Hcc];
        [left; split; [reflexivity | discriminate] | now right].
  - assert (Hzero : Pandas.count_of counts' col' = 0%nat).
    { destruct (Pandas.count_of counts' col') eqn:E; [reflexivity|].
      assert (Hin : In col' header) by (apply Hinv'; rewrite E; discriminate).
      apply mem_In in Hin. congruence. }
    rewrite Hzero, !mangle_zero. cbn [fst snd].
    split; [reflexivity|]. split; [reflexivity|].
    intros c Hcc. apply count_of_set_count in Hcc as [-> | Hcc];
      [left; split; [reflexivity | discriminate] | now right].
Qed.

Lemma set_nth_nth_error_same {A} (l : list A) (i : nat) (a : A) :
  (i < List.length l)%nat -> nth_error (Pandas.set_nth i a l) i = Some a.
Proof.
  revert i. induction l as [|x r IH]; intros [|i] H; cbn in *;
    try lia; [reflexivity|].
  apply IH. lia.
Qed.

Lemma set_nth_nth_error_other {A} (l : list A) (i j : nat) (a : A) :
  i <> j -> nth_error (Pandas.set_nth i a l) j = nth_error l j.
Proof.
  revert i j. induction l as [|x r IH]; intros [|i] [|j] H; cbn;
    try reflexivity; try congruence.
  apply IH. congruence.
Qed.

(** Every name that has a count was given to a column the loop has
    been through, and so the rounds of the loop do not depend on the
    fuel, once there is enough of it. *)
Lemma dedup_steps_fuel (n f1 f2 : nat) :
  (n + 2 <= f1)%nat -> (n + 2 <= f2)%nat ->
  forall order done header counts,
    List.length header = n ->
    NoDup (done ++ order) ->
    (forall i, In i order -> (i < n)%nat) ->
    (forall c, Pandas.count_of counts c <> 0%nat ->
       exists j, In j done /\ nth_error header j = Some c) ->
    fold_left (Pandas.dedup_step f1) order (header, counts)
    = fold_left (Pandas.dedup_step f2) order (header, counts).
Proof.
  intros H1 H2. induction order as [|i order IH];
    intros done header counts Hlen Hnd Hlt Hinv; [reflexivity|].
  cbn [fold_left].
  assert (Hi : (i < List.length header)%nat).
  { rewrite Hlen. apply Hlt. now left. }
  assert (Hidone : ~ In i done).
  { intros Hin. apply NoDup_remove_2 in Hnd. apply Hnd.
    apply in_or_app. now left. }
  assert (Hold : In (nth i header "") header) by now apply nth_In.
  assert (Hinv0 : forall c, Pandas.count_of counts c <> 0%nat ->
                            In c header).
  { intros c Hc. destruct (Hinv c Hc) as (j & _ & Hj).
    exact (nth_error_In _ _ Hj). }
  destruct (mangle_fuel header (nth i header "") Hold f1 f2 []
              (nth i header "")
              (Pandas.count_of counts (nth i header "")) counts)
    as (Heq & Hz & Hc); try assumption.
  { constructor. }
  { intros s []. }
  { intros s []. }
  { cbn [List.length]. lia. }
  { cbn [List.length]. lia. }
  unfold Pandas.dedup_step at 2 4. cbv beta iota zeta. rewrite <- Heq.
  destruct (Pandas.mangle f1 _ _ _ _ _) as [[col' k] counts'].
  cbn [fst snd] in Hz, Hc. subst k.
  apply (IH (i :: done)).
  - now rewrite set_nth_length.
  - apply NoDup_app_remove_l in Hnd as Hnd'.
    change ((i :: done) ++ order) with (i :: (done ++ order)).
    apply NoDup_cons.
    + intros Hin. apply in_app_or in Hin as [Hin | Hin]; [now apply Hidone|].
      now inversion Hnd'.
    + exact (NoDup_remove_1 _ _ _ Hnd).
  - intros j Hj. apply Hlt. now right.
  - intros c Hcc. apply count_of_set_count in Hcc as [-> | Hcc].
    + exists i. split; [now left|]. now apply set_nth_nth_error_same.
    + assert (Hcount : Pandas.count_of counts c <> 0%nat).
      { apply Hc in Hcc as [[-> Hne] | Hcc]; assumption. }
      destruct (Hinv c Hcount) as (j & Hj & Hnth).
      exists j. split; [now right|].
      rewrite set_nth_nth_error_other; [exact Hnth|].
      intros ->. now apply Hidone.
Qed.

(** Enough fuel: [rename_columns] gives the names of [name_columns]
    whatever fuel it is given from [len(fields) + 2] on. *)
Lemma rename_columns_fuel (fuel : nat) (fields : list string) :
  (List.length fields + 2 <= fuel)%nat ->
  Pandas.rename_columns fuel fields = Pandas.name_columns fields.
Proof.
  intros H. unfold Pandas.name_columns, Pandas.rename_columns. f_equal.
  apply (dedup_steps_fuel (List.length fields) _ _ H (Nat.le_refl _) _ []).
  - now rewrite length_map, length_seq.
  - cbn [app]. apply NoDup_app.
    + apply NoDup_filter, seq_NoDup.
    + apply NoDup_filter, seq_NoDup.
    + intros i Hi1 Hi2. apply filter_In in Hi1 as [_ Hi1].
      apply filter_In in Hi2 as [_ Hi2]. rewrite Hi2 in Hi1. discriminate.
  - intros i Hi. apply in_app_or in Hi as [Hi | Hi];
      apply filter_In in Hi as [Hi _]; apply in_seq in Hi; lia.
  - intros c Hc. now contradiction Hc.
Qed.

(** *** Rows with and without a missing field *)

Lemma to_cell_present (f : string) :
  field_missing f = false -> Pandas.to_cell f = Some f.
Proof.
  unfold Pandas.to_cell, Pandas.is_na, field_missing.
  change Pandas.na_values with missing_markers. now intros ->.
Qed.

Lemma to_cell_missing (f : string) :
  field_missing f = true -> Pandas.to_cell f = None.
Proof.
  unfold Pandas.to_cell, Pandas.is_na, field_missing.
  change Pandas.na_values with missing_markers. now intros ->.
Qed.

Lemma forallb_notna_pad (n : nat) (r : list cell) :
  (List.length r < n)%nat ->
  forallb Pandas.notna (Pandas.pad n r) = false.
Proof.
  intros H. unfold Pandas.pad. rewrite forallb_app.
  destruct (n - List.length r)%nat as [|k] eqn:E; [lia|].
  cbn [repeat forallb Pandas.notna]. apply andb_false_r.
Qed.

(** The row of a data line is kept by [dropna] exactly when the line is
    complete, and its cells are then the fields of the line. *)
Lemma row_of_line (n : nat) (line : string) :
  (List.length (fields line) <= n)%nat ->
  if complete_line n line
  then Pandas.pad n (map Pandas.to_cell (fields line))
       = map Some (fields line)
       /\ forallb Pandas.notna (map Some (fields line)) = true
  else forallb Pandas.notna
               (Pandas.pad n (map Pandas.to_cell (fields line))) = false.
Proof.
  intros Hlen. unfold complete_line.
  destruct (List.length (fields line) =? n)%nat eqn:En; cbn [andb].
  - apply Nat.eqb_eq in En.
    rewrite pad_full by now rewrite length_map.
    destruct (forallb _ (fields line)) eqn:Hf.
    + rewrite forallb_forall in Hf. split.
      * apply map_ext_in. intros f Hin.
        apply to_cell_present, negb_true_iff, Hf, Hin.
      * apply forallb_forall. intros c Hc.
        apply in_map_iff in Hc as (f & <- & _). reflexivity.
    + apply not_true_is_false. intros Hall.
      rewrite forallb_forall in Hall.
      assert (Hall' : forallb (fun f => negb (field_missing f))
                              (fields line) = true).
      { apply forallb_forall. intros f Hin.
        destruct (field_missing f) eqn:Hm; [| reflexivity].
        specialize (Hall (Pandas.to_cell f) (in_map _ _ _ Hin)).
        rewrite (to_cell_missing f Hm) in Hall. discriminate. }
      congruence.
  - apply Nat.eqb_neq in En. apply forallb_notna_pad.
    rewrite length_map. lia.
Qed.

Lemma dropna_rows (n : nat) (data : list string) :
  (forall l, In l data -> (List.length (fields l) <= n)%nat) ->
  filter (forallb Pandas.notna)
         (map (fun l => Pandas.pad n (map Pandas.to_cell (fields l))) data)
  = map (fun l => map Some (fields l)) (filter (complete_line n) data).
Proof.
  induction data as [|l r IH]; intros H; [reflexivity|].
  cbn [map filter].
  pose proof (row_of_line n l (H l (or_introl eq_refl))) as Hl.
  rewrite (IH (fun x Hx => H x (or_intror Hx))).
  destruct (complete_line n l).
  - destruct Hl as [-> ->]. reflexivity.
  - now rewrite Hl.
Qed.

(** On a valid file the parser returns the header line's names and one
    row per data line, short rows filled up. *)
Lemma read_csv_valid (text : string) :
  valid_tsv text = true ->
  Pandas.read_csv text 1
  = Ok {| columns := fields (header_line text);
          rows := map (fun l =>
                         Pandas.pad (List.length (fields (header_line text)))
                                    (map Pandas.to_cell (fields l)))
                      (data_lines text) |}.
Proof.
  unfold valid_tsv. intros H.
  apply andb_true_iff in H as [H _].
  apply andb_true_iff in H as [H _].
  apply andb_true_iff in H as [H Hwidth].
  apply andb_true_iff in H as [H Hnd].
  apply andb_true_iff in H as [Hh Hne].
  unfold Pandas.read_csv, data_lines, header_line, file_lines in *.
  destruct (Pandas.split_lines text) as [|l0 [|l1 rest]] eqn:Hs;
    try discriminate Hh.
  cbn [skipn nth] in *. cbn [filter]. rewrite Hh.
  fold (fields l1). rewrite (name_columns_keeps (fields l1) Hne Hnd).
  set (n := List.length (fields l1)) in *.
  set (data := filter Pandas.nonblank rest) in *.
  rewrite forallb_forall in Hwidth.
  assert (Hle : forall l, In l data -> (List.length (fields l) <= n)%nat).
  { intros l Hl. now apply Nat.leb_le, Hwidth. }
  assert (Hm : match map (Pandas.split Pandas.tab) data with
               | [] => n
               | first :: _ => Nat.max n (List.length first)
               end = n).
  { destruct data as [|l r]; [reflexivity|]. cbn [map].
    apply Nat.max_l. exact (Hle l (or_introl eq_refl)). }
  rewrite Hm.
  assert (Hex : existsb (fun r => (n <? List.length r)%nat)
                        (map (Pandas.split Pandas.tab) data) = false).
  { apply not_true_is_false. intros Hex.
    apply existsb_exists in Hex as (r & Hin & Hlt).
    apply in_map_iff in Hin as (l & <- & Hl).
    apply Hle in Hl. apply Nat.ltb_lt in Hlt. unfold fields in Hl. lia. }
  rewrite Hex. f_equal. f_equal.
  rewrite map_map, Nat.sub_diag. reflexivity.
Qed.

(** C6, as the code has it. For a valid tab-separated file (lines ended
    by a line feed, with or without a carriage return before it; header
    names not empty and all different; no data line wider than the
    header; no quoted field), loading succeeds without a message; the
    table's header names are the fields of the file's second line; its
    rows are, in order, the fields of the data lines that have one field
    per column and none of them missing, so that their number is the
    number of such lines, and no row of the table has a missing value. A
    field is missing when it is empty, left out at the end of a short
    line, or one of the spellings of "not available". The first line
    plays no part: the parser gives the same result whatever it holds,
    line ends and quote characters apart. *)
Theorem load_txt_valid (fs : FileSystem) (file_path text : string) :
  fs_read fs file_path = Ok text ->
  valid_tsv text = true ->
  exists df,
    load_txt fs file_path = ([], Ok (Some df))
    /\ columns df = fields (header_line text)
    /\ rows df
       = map (fun l => map Some (fields l))
             (filter (complete_line (List.length (fields (header_line text))))
                     (data_lines text))
    /\ List.length (rows df)
       = List.length
           (filter (complete_line (List.length (fields (header_line text))))
                   (data_lines text))
    /\ (forall r, In r (rows df) -> forallb Pandas.notna r = true)
    /\ (forall l0 l0' eol rest,
          In eol line_ends ->
          plain_line l0 = true -> plain_line l0' = true ->
          Pandas.read_csv (l0 ++ eol ++ rest) 1
          = Pandas.read_csv (l0' ++ eol ++ rest) 1).
Proof.
  intros Hread Hvalid.
  set (n := List.length (fields (header_line text))).
  exists (Pandas.dropna
            {| columns := fields (header_line text);
               rows := map (fun l => Pandas.pad n
                                       (map Pandas.to_cell (fields l)))
                           (data_lines text) |}).
  assert (Hle : forall l, In l (data_lines text) ->
                          (List.length (fields l) <= n)%nat).
  { unfold valid_tsv in Hvalid.
    apply andb_true_iff in Hvalid as [Hv _].
    apply andb_true_iff in Hv as [Hv _].
    apply andb_true_iff in Hv as [_ Hw].
    rewrite forallb_forall in Hw. intros l Hl. now apply Nat.leb_le, Hw. }
  split.
  { unfold load_txt, pd_read_csv.
    now rewrite Hread, (read_csv_valid text Hvalid). }
  cbn [Pandas.dropna columns rows]. rewrite (dropna_rows n _ Hle).
  split; [reflexivity|]. split; [reflexivity|].
  split; [now rewrite length_map|]. split.
  - intros r Hr. apply in_map_iff in Hr as (l & <- & _).
    apply forallb_forall. intros c Hc.
    apply in_map_iff in Hc as (f & <- & _). reflexivity.
  - intros l0 l0' eol rest. apply read_csv_first_line_discarded.
Qed.
(* ------------------------------------------------------------------ *)
(** ** The statements at sample inputs *)

Lemma plot_df_order_not_digits_witness :
  In "x"%char (list_ascii_of_string "3x2")
  /\ plot_df Sample.permissive (Some Sample.df) "sample.txt"
             (Sample.spec_order "3x2" ["red"; "green"; "blue"])
     = ([], Raise Py.ValueError).
Proof.
  split; [cbn; auto|].
  apply (plot_df_order_not_digits Sample.permissive (Some Sample.df)
           "sample.txt" (Sample.spec_order "3x2" ["red"; "green"; "blue"])
           "x"%char); [cbn; auto | reflexivity].
Defined.

Lemma plot_df_color_list_too_short_witness :
  plot_column Sample.permissive (Some Sample.df) ["red"] 2
  = ([], Raise Py.IndexError)
  /\ (exists e,
        Eff.outcome (plot_df Sample.permissive (Some Sample.df) "sample.txt"
                             (Sample.spec_order "12" ["red"])) = Raise e)
  /\ saved_files
       (Eff.log (plot_df Sample.permissive (Some Sample.df) "sample.txt"
                         (Sample.spec_order "12" ["red"]))) = []
  /\ plotted (Eff.log (plot_column Sample.permissive (Some Sample.df)
                                      ["red"] 2)) = [].
Proof.
  apply (plot_df_color_list_too_short Sample.permissive Sample.df
           "sample.txt" (Sample.spec_order "12" ["red"]) "2"%char 2).
  - cbn; auto.
  - reflexivity.
  - vm_compute. discriminate.
  - vm_compute. discriminate.
Defined.

Lemma column_guard_witness :
  (silently_skipped Sample.three_colours Sample.df ["red"; "green"; "blue"] 4
   <-> (ncols Sample.df <= 4)%Z)
  /\ plot_column Sample.three_colours (Some Sample.df)
                  ["red"; "notacolor"; "blue"; "black"] 2
     = ([], Raise Py.ValueError)
  /\ plot_df Sample.three_colours (Some Sample.df) "sample.txt"
             (Sample.spec_order "9" ["red"; "green"; "blue"])
     = ([EvRcParams 9; EvFigure 4 2; EvXLabel None; EvYLabel None;
         EvTightLayout; EvSavefig "sample.txt.svg" "svg"; EvClose],
        Ok tt).
Proof.
  destruct (column_guard Sample.three_colours Sample.df
              ["red"; "green"; "blue"]) as (Hskip & _ & Hnine).
  destruct (column_guard Sample.three_colours Sample.df
              ["red"; "notacolor"; "blue"; "black"]) as (_ & Hdraw & _).
  split; [| split].
  - exact (Hskip "4"%char 4%Z eq_refl).
  - destruct (Hdraw "2"%char 2%Z eq_refl eq_refl)
      as (x & y & label & Hx & Hy & Hl & Hp).
    rewrite Hp. vm_compute in Hx, Hy, Hl.
    injection Hx as <-. injection Hy as <-. injection Hl as <-.
    reflexivity.
  - exact (Hnine "sample.txt"
                 (Sample.spec_order "9" ["red"; "green"; "blue"])
                 eq_refl eq_refl eq_refl).
Defined.

(** The digit [4] on the table of four columns: it does not exceed the
    number of columns, and it is skipped. *)
Lemma digit_equal_to_column_count_is_skipped :
  ~ (silently_skipped Sample.permissive Sample.df
                       ["red"; "green"; "blue"; "black"] 4
     <-> (ncols Sample.df < 4)%Z).
Proof.
  intros [H _].
  assert (Hs : silently_skipped Sample.permissive Sample.df
                 ["red"; "green"; "blue"; "black"] 4) by reflexivity.
  apply H in Hs. vm_compute in Hs. discriminate.
Qed.

Lemma order_zero_wraps_witness :
  plot_column Sample.three_colours (Some Sample.df)
              ["red"; "green"; "blue"] 0
  = ([EvPlot (mkSeries "Distance" [Some "0.0"; Some "0.5"])
             (mkSeries "Distance" [Some "0.0"; Some "0.5"]) "blue" "C"],
     Ok tt)
  /\ plot_column Sample.three_colours (Some Sample.df) [] 0
     = ([], Raise Py.IndexError).
Proof.
  destruct (order_zero_wraps Sample.three_colours Sample.df
              ["red"; "green"; "blue"])
    as (_ & _ & _ & _ & Hdraw); [discriminate|].
  destruct (order_zero_wraps Sample.three_colours Sample.df [])
    as (_ & _ & _ & Hnone & _); [discriminate|].
  split; [| exact (Hnone eq_refl)].
  destruct Hdraw as (x & Hx & _ & Hp & _); [discriminate|].
  vm_compute in Hx. injection Hx as <-. exact Hp.
Defined.

(** With an empty colour list the digit [0] draws nothing: the colour
    subscript raises. *)
Lemma order_zero_with_no_colour :
  ~ (exists x color label,
        plot_column Sample.permissive (Some Sample.df) [] 0
        = ([EvPlot x x color label], Ok tt)).
Proof. intros (x & color & label & H). vm_compute in H. discriminate H. Qed.

Lemma get_txt_files_spec_witness :
  get_txt_files Sample.fs_nested "data" = ["data/a.txt"; "data/sub/b.txt"]
  /\ (get_txt_files Sample.fs_nested "elsewhere" = []
      /\ forall be ps, main be Sample.fs_nested "elsewhere" ps = ([], Ok tt)).
Proof.
  destruct (get_txt_files_spec Sample.fs_nested "data") as (Heq & _).
  destruct (get_txt_files_spec Sample.fs_nested "elsewhere")
    as (_ & _ & _ & Hu).
  split.
  - rewrite Heq. vm_compute. reflexivity.
  - exact (Hu eq_refl).
Defined.

Lemma image_written_per_file_witness :
  saved_files
    (Eff.log (plot_df Sample.permissive (Some Sample.df)
                      (Py.os_path_basename "data/sample.txt")
                      main_defaults))
  = ["sample.txt.svg"]
  /\ saved_files
       (Eff.log (main Sample.permissive Sample.fs_one "data" main_defaults))
     = ["sample.txt.svg"].
Proof.
  destruct (image_written_per_file Sample.permissive Sample.fs_one
              main_defaults) as (Hfile & Hbatch).
  split.
  - exact (proj1 (Hfile "data/sample.txt" Sample.df eq_refl eq_refl)).
  - exact (Hbatch "data" eq_refl).
Defined.

(** The image of [sample.txt] is [sample.txt.svg], not [sample.svg]. *)
Lemma image_name_keeps_input_extension :
  saved_files
    (Eff.log (main Sample.permissive Sample.fs_one "data" main_defaults))
  <> ["sample.svg"].
Proof. vm_compute. discriminate. Qed.

Lemma load_txt_valid_witness :
  valid_tsv Sample.text_crlf = true
  /\ exists df,
       load_txt Sample.fs_texts "data/crlf.txt" = ([], Ok (Some df))
       /\ columns df = ["Distance"; "A"; "B"; "C"]
       /\ rows df = [ [Some "0.0"; Some "10"; Some "20"; Some "30"];
                      [Some "1.5"; Some "13"; Some "23"; Some "33"] ]
       /\ List.length (data_lines Sample.text_crlf) = 4%nat.
Proof.
  split; [reflexivity|].
  destruct (load_txt_valid Sample.fs_texts "data/crlf.txt"
              Sample.text_crlf eq_refl eq_refl)
    as (df & Hload & Hcols & Hrows & _).
  exists df. split; [exact Hload|]. split; [| split].
  - rewrite Hcols. reflexivity.
  - rewrite Hrows. reflexivity.
  - reflexivity.
Defined.

(** Two files that are tab-separated and well formed. With a header
    that names two columns [A], the table has the columns [Distance], [A]
    and [A.1], not the names of the header line. With the text [NA] in a
    field, the row is left out although every one of its fields is
    populated: three data lines have a field for every column, the table
    has two rows. *)
Lemma renamed_header_and_dropped_row :
  (exists df,
      load_txt Sample.fs_texts "data/repeated.txt" = ([], Ok (Some df))
      /\ fields (header_line Sample.text_repeated) = ["Distance"; "A"; "A"]
      /\ columns df = ["Distance"; "A"; "A.1"]
      /\ columns df <> fields (header_line Sample.text_repeated))
  /\ (exists df,
        load_txt Sample.fs_texts "data/crlf.txt" = ([], Ok (Some df))
        /\ List.length
             (filter (populated_line 4) (data_lines Sample.text_crlf))
           = 3%nat
        /\ List.length (rows df) = 2%nat).
Proof.
  split.
  - eexists. split; [vm_compute; reflexivity|].
    split; [reflexivity|]. split; [reflexivity|]. vm_compute. discriminate.
  - eexists. split; [vm_compute; reflexivity|]. split; reflexivity.
Qed.
(* ================================================================== *)
(** * Further properties of the program *)

(* ------------------------------------------------------------------ *)
(** ** Strings and paths *)

Lemma length_append (s1 s2 : string) :
  String.length (s1 ++ s2) = (String.length s1 + String.length s2)%nat.
Proof. induction s1 as [|c r IH]; cbn; [reflexivity | now rewrite IH]. Qed.

Lemma append_assoc (s1 s2 s3 : string) :
  ((s1 ++ s2) ++ s3 = s1 ++ (s2 ++ s3))%string.
Proof. induction s1 as [|c r IH]; cbn; [reflexivity | now rewrite IH]. Qed.

Lemma substring_all (s : string) : substring 0 (String.length s) s = s.
Proof. induction s as [|c r IH]; cbn; [reflexivity | now rewrite IH]. Qed.

Lemma substring_skip (p s : string) (n : nat) :
  substring (String.length p) n (p ++ s) = substring 0 n s.
Proof. induction p as [|c r IH]; cbn; [reflexivity | exact IH]. Qed.

(** A string is what precedes a position followed by what is left. *)
Lemma substring_suffix (n : nat) :
  forall s, (n <= String.length s)%nat ->
  exists p, s = (p ++ substring n (String.length s - n) s)%string.
Proof.
  induction n as [|n IH]; intros s Hn.
  - exists EmptyString. rewrite Nat.sub_0_r, substring_all. reflexivity.
  - destruct s as [|c r]; cbn in Hn; [lia|].
    destruct (IH r ltac:(lia)) as [p Hp].
    exists (String c p). cbn. now rewrite <- Hp.
Qed.

Lemma endswith_append (p suffix : string) :
  Py.endswith (p ++ suffix) suffix = true.
Proof.
  unfold Py.endswith. rewrite length_append.
  replace (String.length p + String.length suffix - String.length suffix)%nat
    with (String.length p) by lia.
  rewrite substring_skip, substring_all, String.eqb_refl.
  apply andb_true_iff. split; [apply Nat.leb_le; lia | reflexivity].
Qed.

Lemma endswith_inv (s suffix : string) :
  Py.endswith s suffix = true -> exists p, s = (p ++ suffix)%string.
Proof.
  unfold Py.endswith. intros H. apply andb_true_iff in H as [Hl He].
  apply Nat.leb_le in Hl. apply String.eqb_eq in He.
  destruct (substring_suffix (String.length s - String.length suffix) s
              ltac:(lia)) as [p Hp].
  replace (String.length s - (String.length s - String.length suffix))%nat
    with (String.length suffix) in Hp by lia.
  rewrite He in Hp. now exists p.
Qed.

(** [os.path.join(a, b)] ends with [b]. *)
Lemma os_path_join_suffix (a b : string) :
  exists p, Py.os_path_join a b = (p ++ b)%string.
Proof.
  unfold Py.os_path_join.
  destruct (Py.startswith b _); [now exists EmptyString|].
  destruct (_ || _)%bool; [now exists a|].
  exists (a ++ String Py.sep EmptyString)%string.
  now rewrite append_assoc.
Qed.

Lemma has_sep_append_sep (a f : string) :
  Py.has_sep (a ++ String Py.sep f) = true.
Proof.
  induction a as [|c r IH]; cbn [append Py.has_sep].
  - now rewrite Ascii.eqb_refl.
  - rewrite IH. apply orb_true_r.
Qed.

Lemma basename_without_sep (f : string) :
  Py.has_sep f = false -> Py.os_path_basename f = f.
Proof.
  destruct f as [|c r]; [reflexivity|]. cbn [Py.has_sep Py.os_path_basename].
  intros H. apply orb_false_iff in H as [Hc Hr]. now rewrite Hr, Hc.
Qed.

Lemma basename_after_sep (a f : string) :
  Py.has_sep f = false ->
  Py.os_path_basename (a ++ String Py.sep f) = f.
Proof.
  intros Hf. induction a as [|c r IH]; cbn [append Py.os_path_basename].
  - now rewrite Hf, Ascii.eqb_refl.
  - now rewrite has_sep_append_sep.
Qed.

Lemma startswith_sep_has_sep (f : string) :
  Py.startswith f (String Py.sep EmptyString) = true -> Py.has_sep f = true.
Proof.
  unfold Py.startswith. destruct f as [|c r]; cbn [String.prefix];
    [discriminate|].
  destruct (ascii_dec Py.sep c) as [<- | _]; [| discriminate].
  intros _. cbn [Py.has_sep]. now rewrite Ascii.eqb_refl.
Qed.

(** X1. Joining a directory path and a file name and taking the base name
    gives the file name back, for a name without separator: the image of
    a discovered file is named after the file alone, whatever directory
    holds it. *)
Theorem basename_of_joined_path (ps : PlotSpec) (root file : string) :
  Py.has_sep file = false ->
  Py.os_path_basename (Py.os_path_join root file) = file
  /\ image_name ps (Py.os_path_join root file)
     = (file ++ "." ++ image_data_type ps)%string.
Proof.
  intros Hf.
  assert (Hb : Py.os_path_basename (Py.os_path_join root file) = file).
  { unfold Py.os_path_join.
    destruct (Py.startswith file _) eqn:Hs.
    { apply startswith_sep_has_sep in Hs. congruence. }
    destruct (String.eqb root "") eqn:Hr.
    { apply String.eqb_eq in Hr. subst root. cbn.
      now apply basename_without_sep. }
    cbn [orb].
    destruct (Py.endswith root _) eqn:He.
    - apply endswith_inv in He as [a ->].
      rewrite append_assoc. cbn [append]. now apply basename_after_sep.
    - now apply basename_after_sep. }
  split; [exact Hb|]. unfold image_name. now rewrite Hb.
Qed.

(* ------------------------------------------------------------------ *)
(** ** More on file discovery *)

Lemma scan_walk_app (w1 w2 : list (string * list string))
                    (txt_files : list string) :
  scan_walk (w1 ++ w2) txt_files = scan_walk w2 (scan_walk w1 txt_files).
Proof.
  revert txt_files. induction w1 as [|[root files] r IH]; intros acc;
    [reflexivity|].
  cbn [app scan_walk]. apply IH.
Qed.

Lemma scan_walk_acc (w : list (string * list string))
                    (txt_files : list string) :
  scan_walk w txt_files = txt_files ++ scan_walk w [].
Proof. now rewrite (scan_walk_spec w txt_files), (scan_walk_spec w []). Qed.

(** X2. Every path the discoverer returns ends with [.txt]. *)
Theorem get_txt_files_all_txt (fs : FileSystem) (dir p : string) :
  In p (get_txt_files fs dir) -> Py.endswith p ".txt" = true.
Proof.
  unfold get_txt_files. rewrite scan_walk_spec. cbn [app].
  intros Hin. apply in_map_iff in Hin as ([root file] & <- & Hf).
  apply filter_In in Hf as [_ Ht]. cbn [fst snd] in *.
  apply endswith_inv in Ht as [q ->].
  destruct (os_path_join_suffix root (q ++ ".txt")) as [a ->].
  rewrite <- append_assoc. apply endswith_append.
Qed.

(** X3. The result is laid out top-down: the matching files of the root,
    in listing order, then what each sub-directory gives, one
    sub-directory after the other. *)
Theorem get_txt_files_top_down (fs : FileSystem) (dir : string)
        (files : list string) (subdirs : list (string * DirTree)) :
  fs_tree fs dir = Dir files subdirs ->
  get_txt_files fs dir
  = map (Py.os_path_join dir) (filter is_txt files)
    ++ flat_map (fun ns => scan_walk
                             (os_walk (Py.os_path_join dir (fst ns)) (snd ns))
                             [])
                subdirs.
Proof.
  intros Ht. unfold get_txt_files. rewrite Ht, os_walk_Dir.
  cbn [scan_walk]. rewrite scan_files_spec. cbn [app].
  rewrite scan_walk_acc. f_equal. clear Ht.
  induction subdirs as [|[name sub] r IH]; [reflexivity|].
  cbn [flat_map fst snd]. rewrite scan_walk_app, scan_walk_acc.
  now rewrite IH.
Qed.

(* ------------------------------------------------------------------ *)
(** ** More on table loading *)

Lemma pad_length (n : nat) (r : list cell) :
  (List.length r <= n)%nat -> List.length (Pandas.pad n r) = n.
Proof.
  intros H. unfold Pandas.pad. rewrite length_app, repeat_length. lia.
Qed.

(** Renaming keeps the number of columns. *)
Lemma rename_columns_length (fuel : nat) (fields : list string) :
  List.length (Pandas.rename_columns fuel fields) = List.length fields.
Proof.
  unfold Pandas.rename_columns.
  set (order := _ ++ _). set (header := map _ _).
  assert (Hh : List.length header = List.length fields).
  { unfold header. now rewrite length_map, length_seq. }
  rewrite <- Hh. clear Hh. generalize (@nil (string * nat)) as counts.
  generalize header. clear header.
  induction order as [|i r IH]; intros header counts; [reflexivity|].
  cbn [fold_left]. unfold Pandas.dedup_step at 2.
  destruct (Pandas.mangle _ _ _ _ _ _) as [[col' cur] counts'].
  rewrite IH. apply set_nth_length.
Qed.

Lemma name_columns_length (fields : list string) :
  List.length (Pandas.name_columns fields) = List.length fields.
Proof. apply rename_columns_length. Qed.

(** What the parser returns has at least one column and as many cells in
    each row as it has columns. *)
Lemma read_csv_shape (text : string) (skiprows : nat) (df : DataFrame) :
  Pandas.read_csv text skiprows = Ok df ->
  columns df <> []
  /\ forall r, In r (rows df) -> List.length r = List.length (columns df).
Proof.
  unfold Pandas.read_csv.
  destruct (filter Pandas.nonblank _) as [|header data]; [discriminate|].
  set (n := List.length (Pandas.name_columns (Pandas.split Pandas.tab header))).
  set (m := match map (Pandas.split Pandas.tab) data with
            | [] => n
            | first :: _ => Nat.max n (List.length first)
            end).
  assert (Hm : (n <= m)%nat).
  { unfold m. destruct (map _ data); [lia | apply Nat.le_max_l]. }
  destruct (existsb _ _) eqn:Hex; [discriminate|].
  intros [= <-]. cbn [columns rows]. split.
  { intros Hnil. apply (f_equal (@List.length string)) in Hnil.
    rewrite name_columns_length in Hnil.
    destruct (Pandas.split Pandas.tab header) eqn:E; [| discriminate].
    now apply split_nonempty in E. }
  intros r Hr. apply in_map_iff in Hr as (rec & <- & Hrec).
  fold n. rewrite length_skipn, pad_length; [lia|].
  rewrite length_map.
  destruct (Nat.le_gt_cases (List.length rec) m) as [H | H]; [exact H|].
  assert (Ht : existsb (fun r => (m <? List.length r)%nat)
                       (map (Pandas.split Pandas.tab) data) = true).
  { apply existsb_exists. exists rec. split; [exact Hrec|].
    now apply Nat.ltb_lt. }
  rewrite Ht in Hex. discriminate.
Qed.

(** A table that [load_txt] returns comes without a printed message. *)
Lemma loaded_table_shape (fs : FileSystem) (file_path : string)
      (l : list Event) (df : DataFrame) :
  load_txt fs file_path = (l, Ok (Some df)) ->
  l = []
  /\ exists text d,
       fs_read fs file_path = Ok text
       /\ Pandas.read_csv text 1 = Ok d
       /\ df = Pandas.dropna d.
Proof.
  unfold load_txt, pd_read_csv.
  destruct (fs_read fs file_path) as [text|e];
    [| destruct e; discriminate].
  destruct (Pandas.read_csv text 1) as [d|e] eqn:Hr;
    [| destruct e; discriminate].
  intros [= <- <-]. split; [reflexivity|]. now exists text, d.
Qed.

(** X4. Whatever the file holds, a table that [load_txt] returns comes
    without a printed message, has at least one column, and each of its
    rows has one cell per column, none of them missing. *)
Theorem loaded_table_invariant (fs : FileSystem) (file_path : string)
        (l : list Event) (df : DataFrame) :
  load_txt fs file_path = (l, Ok (Some df)) ->
  l = []
  /\ columns df <> []
  /\ forall r, In r (rows df) ->
       List.length r = List.length (columns df)
       /\ forallb Pandas.notna r = true.
Proof.
  intros Hl.
  destruct (loaded_table_shape fs file_path l df Hl)
    as (-> & text & d & _ & Hr & ->).
  destruct (read_csv_shape text 1 d Hr) as [Hc Hrows].
  split; [reflexivity|]. split; [exact Hc|].
  intros r Hin. cbn [Pandas.dropna rows columns] in *.
  apply filter_In in Hin as [Hin Hna]. split; [now apply Hrows | exact Hna].
Qed.

(** X5. A file with nothing but blank lines after its first line (an
    empty file, a title alone), whether its lines end with a line feed, a
    carriage return or both, has no header to read: the loader prints the
    parser's error and returns [None]. *)
Theorem load_txt_without_header (fs : FileSystem) (file_path text : string) :
  fs_read fs file_path = Ok text ->
  forallb (fun line => negb (Pandas.nonblank line))
          (skipn 1 (file_lines text)) = true ->
  load_txt fs file_path
  = ([EvPrint (MsgLoadError Py.EmptyDataError)], Ok None).
Proof.
  intros Hread Hblank. unfold load_txt, pd_read_csv, Pandas.read_csv.
  rewrite Hread. fold (file_lines text).
  assert (Hf : filter Pandas.nonblank (skipn 1 (file_lines text)) = []).
  { rewrite forallb_forall in Hblank.
    destruct (filter _ _) as [|x r] eqn:E; [reflexivity|].
    assert (Hx : In x (filter Pandas.nonblank (skipn 1 (file_lines text))))
      by (rewrite E; now left).
    apply filter_In in Hx as [Hin Hnb].
    apply Hblank in Hin. rewrite Hnb in Hin. discriminate. }
  now rewrite Hf.
Qed.

(* ------------------------------------------------------------------ *)
(** ** More on rendering *)

Lemma parse_order_range (cs : list ascii) (ds : list Z) :
  parse_order cs = Some ds -> forall d, In d ds -> (0 <= d <= 9)%Z.
Proof.
  revert ds. induction cs as [|c r IH]; intros ds Hp d Hd; cbn in Hp.
  - injection Hp as <-. destruct Hd.
  - destruct (Py.int_of_char c) as [d0|] eqn:Hc; [| discriminate].
    destruct (parse_order r) as [ds'|]; [| discriminate].
    injection Hp as <-. destruct Hd as [<- | Hd].
    + exact (int_of_char_range c d0 Hc).
    + exact (IH ds' eq_refl d Hd).
Qed.

Lemma index_In {A} (l : list A) (i : Z) (a : A) :
  Py.index l i = Some a -> In a l.
Proof.
  unfold Py.index. destruct (0 <=? i)%Z; [apply nth_error_In|].
  destruct (_ <=? i)%Z; [apply nth_error_In | discriminate].
Qed.

Lemma iloc_col_name_In (df : DataFrame) (i : Z) (y : Series) :
  Pandas.iloc_col df i = Some y -> In (series_name y) (columns df).
Proof.
  unfold Pandas.iloc_col.
  destruct (Py.index (columns df) i) as [name|] eqn:Hi; [| discriminate].
  intros [= <-]. exact (index_In _ _ _ Hi).
Qed.

Lemma plotted_names_app (l1 l2 : list Event) :
  plotted_names (l1 ++ l2) = plotted_names l1 ++ plotted_names l2.
Proof. unfold plotted_names. apply flat_map_app. Qed.

Lemma plotted_names_post_settings (ps : PlotSpec) :
  plotted_names (post_settings ps) = [].
Proof. unfold post_settings. now destruct (legend ps). Qed.

Section RenderingFacts.

Variable be : Backend.

(** A pass on a guarded index, by the call it stands for. *)
Lemma plot_column_call (df : DataFrame) (cl : list string) (d : Z) :
  (0 <= d < ncols df)%Z ->
  plot_column be (Some df) cl d
  = match plot_call df cl d with
    | Some ev => plt be ev
    | None => ([], Raise Py.IndexError)
    end
  /\ (plot_call df cl d = None <-> Py.index cl (d - 1) = None)
  /\ forall ev, plot_call df cl d = Some ev ->
       exists x y color label,
         ev = EvPlot x y color label
         /\ Pandas.iloc_col df d = Some y
         /\ Py.index cl (d - 1) = Some color.
Proof.
  intros Hd.
  destruct (plot_column_guarded be df cl d Hd)
    as (x & y & label & Hx & Hy & Hl & Hp).
  unfold plot_call. rewrite Hx, Hy, Hl, Hp.
  destruct (Py.index cl (d - 1)) as [color|].
  - split; [reflexivity|]. split; [split; discriminate|].
    intros ev [= <-]. now exists x, y, color, label.
  - split; [reflexivity|]. split; [split; reflexivity|]. discriminate.
Qed.

(** A pass on a table completes unless the guard lets the index through
    and either the colour subscript is out of range or the backend
    refuses the call. *)
Lemma plot_column_outcome (df : DataFrame) (cl : list string) (d : Z) :
  (0 <= d)%Z ->
  Eff.outcome (plot_column be (Some df) cl d) = Ok tt
  <-> ((d < ncols df)%Z ->
       exists ev, plot_call df cl d = Some ev /\ refuses be ev = None).
Proof.
  intros Hd. destruct (Z.lt_ge_cases d (ncols df)) as [Hlt | Hge].
  - destruct (plot_column_call df cl d ltac:(lia)) as (-> & _ & _).
    destruct (plot_call df cl d) as [ev|].
    + unfold plt. destruct (refuses be ev) eqn:E; cbn; split.
      * discriminate.
      * intros H. destruct (H Hlt) as (ev' & [= <-] & He). congruence.
      * intros _ _. now exists ev.
      * reflexivity.
    + cbn. split; [discriminate|].
      intros H. now destruct (H Hlt) as (ev & [=] & _).
  - rewrite (plot_column_skipped be df cl d Hge). cbn.
    split; [lia | reflexivity].
Qed.

(** The series of a completed pass: column [d] when the guard lets [d]
    through, none otherwise. *)
Lemma plot_column_names (df : DataFrame) (cl : list string) (d : Z) :
  (0 <= d)%Z ->
  Eff.outcome (plot_column be (Some df) cl d) = Ok tt ->
  map Some (plotted_names (Eff.log (plot_column be (Some df) cl d)))
  = if (d <? ncols df)%Z then [nth_error (columns df) (Z.to_nat d)] else [].
Proof.
  intros Hd. destruct (d <? ncols df)%Z eqn:E.
  - apply Z.ltb_lt in E.
    destruct (plot_column_call df cl d ltac:(lia)) as (-> & _ & Hev).
    destruct (iloc_col_in_range df d ltac:(lia)) as (y' & Hy' & Hn).
    destruct (plot_call df cl d) as [ev|]; [| discriminate].
    destruct (Hev ev eq_refl) as (x & y & color & label & -> & Hy & _).
    rewrite Hy in Hy'. injection Hy' as <-.
    unfold plt. destruct (refuses be _); [discriminate|].
    intros _. cbn. now rewrite Hn.
  - apply Z.ltb_ge in E. now rewrite (plot_column_skipped be df cl d E).
Qed.

(** What a pass draws comes from the table and the colour list. *)
Lemma plot_column_event (df : DataFrame) (cl : list string) (d : Z)
                        (ev : Event) :
  In ev (Eff.log (plot_column be (Some df) cl d)) ->
  exists x y color label,
    ev = EvPlot x y color label
    /\ Pandas.iloc_col df 0 = Some x
    /\ In (series_name y) (columns df)
    /\ In color cl
    /\ In label (columns df).
Proof.
  unfold plot_column, len_columns. cbn.
  destruct (_ <=? _)%Z; [| intros []].
  destruct (Pandas.iloc_col df 0) as [x|] eqn:Hx; [| intros []]. cbn.
  destruct (Pandas.iloc_col df d) as [y|] eqn:Hy; [| intros []]. cbn.
  destruct (Py.index cl (d - 1)) as [c|] eqn:Hc; [| intros []]. cbn.
  destruct (Py.index (columns df) (d - 1)) as [lbl|] eqn:Hl; [| intros []].
  cbn. unfold plt. destruct (refuses be _); [intros [] |].
  cbn. intros [<- | []]. exists x, y, c, lbl.
  repeat split; eauto using index_In, iloc_col_name_In.
Qed.

Lemma plot_column_only_plots (df : option DataFrame) (cl : list string)
                             (d : Z) (ev : Event) :
  In ev (Eff.log (plot_column be df cl d)) ->
  exists x y color label, ev = EvPlot x y color label.
Proof.
  destruct df as [df|]; [| intros []].
  intros H. destruct (plot_column_event df cl d ev H)
    as (x & y & c & l & -> & _). now exists x, y, c, l.
Qed.

(** What a pass can raise of its own: [IndexError] on a table,
    [AttributeError] on [None]; anything else is the backend's. *)
Lemma plot_column_raise (df : option DataFrame) (cl : list string) (d : Z)
                        (e : Py.Exc) :
  Eff.outcome (plot_column be df cl d) = Raise e ->
  match df with
  | Some _ => e = Py.IndexError
  | None => e = Py.AttributeError
  end
  \/ exists ev, refuses be ev = Some e.
Proof.
  unfold plot_column, len_columns.
  destruct df as [df|]; cbn; [| intros [= <-]; now left].
  destruct (_ <=? _)%Z; [| discriminate].
  destruct (Pandas.iloc_col df 0); cbn; [| intros [= <-]; now left].
  destruct (Pandas.iloc_col df d); cbn; [| intros [= <-]; now left].
  destruct (Py.index cl (d - 1)); cbn; [| intros [= <-]; now left].
  destruct (Py.index (columns df) (d - 1)); cbn;
    [| intros [= <-]; now left].
  unfold plt. destruct (refuses be _) eqn:E; cbn; [| discriminate].
  intros [= <-]. right. eexists. exact E.
Qed.

(** X6. Rendering a table completes exactly when every character of the
    order is a digit, every digit below the number of columns has its
    colour subscript within the colour list, and the backend takes every
    call made: the two that set the figure up, the call of [plt.plot] for
    each such digit, and the calls from the axis labels to the save. *)
Theorem plot_df_completes_iff (df : DataFrame) (name : string)
                              (ps : PlotSpec) :
  Eff.outcome (plot_df be (Some df) name ps) = Ok tt
  <-> exists ds,
        parse_order (list_ascii_of_string (column_order ps)) = Some ds
        /\ accepts be [EvRcParams (font_size ps);
                       EvFigure (width ps) (height ps)] = true
        /\ (forall d, In d ds -> (d < ncols df)%Z ->
              exists ev, plot_call df (colors ps) d = Some ev
                         /\ refuses be ev = None)
        /\ accepts be
             (post_settings ps
              ++ [EvSavefig (name ++ "." ++ image_data_type ps)%string
                            (image_data_type ps)]) = true.
Proof.
  rewrite plot_df_cases.
  destruct (parse_order _) as [ds|] eqn:Hp.
  2:{ split; [discriminate | now intros (ds & [=] & _)]. }
  destruct (run be [_; _]) as [l0 res0] eqn:H0.
  assert (Hout0 : Eff.outcome
                    (run be [EvRcParams (font_size ps);
                             EvFigure (width ps) (height ps)]) = res0)
    by now rewrite H0.
  destruct res0 as [[]|e0].
  2:{ split; [discriminate|]. intros (? & _ & Hacc & _).
      rewrite (run_accepts be _ Hacc) in Hout0. discriminate. }
  destruct (Eff.for_each ds _) as [l res] eqn:Hloop.
  assert (Hout : Eff.outcome
                   (Eff.for_each ds (plot_column be (Some df) (colors ps)))
                 = res) by now rewrite Hloop.
  destruct res as [[]|e].
  2:{ split; [discriminate|]. intros (ds' & [= <-] & _ & Hall & _).
      rewrite for_each_all_ok in Hout; [discriminate|].
      intros d Hd. apply plot_column_outcome;
        [apply (parse_order_range _ _ Hp d Hd) | now apply Hall]. }
  destruct (run be (post_settings ps ++ _)) as [l2 res2] eqn:H2.
  assert (Hout2 : Eff.outcome
                    (run be (post_settings ps
                             ++ [EvSavefig
                                   (name ++ "." ++ image_data_type ps)%string
                                   (image_data_type ps)])) = res2)
    by now rewrite H2.
  destruct res2 as [[]|e2].
  - split; [intros _ | reflexivity].
    exists ds. split; [reflexivity|].
    split; [exact (proj1 (run_ok be _ Hout0))|].
    split; [| exact (proj1 (run_ok be _ Hout2))].
    intros d Hd. apply plot_column_outcome;
      [apply (parse_order_range _ _ Hp d Hd)|].
    now apply (proj1 (for_each_ok _ ds Hout)).
  - split; [discriminate|]. intros (? & _ & _ & _ & Hacc).
    rewrite (run_accepts be _ Hacc) in Hout2. discriminate.
Qed.

(** X7. A completed rendering has drawn its series in the order of the
    digits, one for each occurrence of a digit below the number of columns:
    the digit [d] draws the column at position [d], counting from zero. *)
Theorem plot_df_draw_order (df : DataFrame) (name : string) (ps : PlotSpec)
                           (ds : list Z) :
  parse_order (list_ascii_of_string (column_order ps)) = Some ds ->
  Eff.outcome (plot_df be (Some df) name ps) = Ok tt ->
  map Some (plotted_names (Eff.log (plot_df be (Some df) name ps)))
  = map (fun d => nth_error (columns df) (Z.to_nat d))
        (filter (fun d => (d <? ncols df)%Z) ds).
Proof.
  intros Hp. rewrite plot_df_cases, Hp.
  destruct (run be [_; _]) as [l0 [[]|e0]] eqn:H0; [| discriminate].
  assert (Hl0 : l0 = [EvRcParams (font_size ps);
                      EvFigure (width ps) (height ps)]).
  { match type of H0 with
    | run be ?evs = _ =>
        destruct (run_ok be evs) as [_ Hr]; [now rewrite H0|]
    end.
    rewrite H0 in Hr. now injection Hr. }
  destruct (Eff.for_each ds _) as [l res] eqn:Hloop.
  assert (Hout : Eff.outcome
                   (Eff.for_each ds (plot_column be (Some df) (colors ps)))
                 = res) by now rewrite Hloop.
  assert (Hlog : Eff.log
                   (Eff.for_each ds (plot_column be (Some df) (colors ps)))
                 = l) by now rewrite Hloop.
  destruct res as [[]|e]; [| discriminate].
  destruct (run be (post_settings ps ++ _)) as [l2 [[]|e2]] eqn:H2;
    [| discriminate].
  assert (Hl2 : l2 = post_settings ps
                     ++ [EvSavefig (name ++ "." ++ image_data_type ps)%string
                                   (image_data_type ps)]).
  { match type of H2 with
    | run be ?evs = _ =>
        destruct (run_ok be evs) as [_ Hr]; [now rewrite H2|]
    end.
    rewrite H2 in Hr. now injection Hr. }
  intros _. subst l0 l2. unfold Eff.log at 1. cbn [fst].
  rewrite !plotted_names_app, plotted_names_post_settings.
  cbn [plotted_names flat_map app]. rewrite app_nil_r.
  destruct (for_each_ok _ ds Hout) as [Hall Hl]. rewrite Hlog in Hl.
  rewrite Hl. clear Hloop Hout Hlog Hl H0 H2.
  pose proof (parse_order_range _ _ Hp) as Hr. clear Hp.
  induction ds as [|d r IH]; [reflexivity|].
  cbn [flat_map filter]. rewrite plotted_names_app, map_app.
  rewrite (plot_column_names df (colors ps) d
             (proj1 (Hr d (or_introl eq_refl))) (Hall d (or_introl eq_refl))).
  rewrite (IH (fun y Hy => Hall y (or_intror Hy))
              (fun y Hy => Hr y (or_intror Hy))).
  now destruct (d <? ncols df)%Z.
Qed.

(** The events of a rendering: those of the first two calls, of the loop
    and of the calls that follow, and the close. *)
Lemma plot_df_log_In (df : option DataFrame) (name : string) (ps : PlotSpec)
                     (ev : Event) :
  In ev (Eff.log (plot_df be df name ps)) ->
  In ev [EvRcParams (font_size ps); EvFigure (width ps) (height ps)]
  \/ (exists d, In ev (Eff.log (plot_column be df (colors ps) d)))
  \/ In ev (post_settings ps)
  \/ ev = EvSavefig (name ++ "." ++ image_data_type ps)%string
                    (image_data_type ps)
  \/ (ev = EvClose /\ Eff.outcome (plot_df be df name ps) = Ok tt).
Proof.
  rewrite plot_df_cases.
  destruct (parse_order _) as [ds|]; [| intros []].
  destruct (run be [_; _]) as [l0 res0] eqn:H0.
  assert (Hl0 : In ev l0 ->
                In ev [EvRcParams (font_size ps);
                       EvFigure (width ps) (height ps)]).
  { intros H. apply (run_log_In be). now rewrite H0. }
  destruct res0 as [[]|e0]; [| intros H; left; now apply Hl0].
  destruct (Eff.for_each ds _) as [l res] eqn:Hloop.
  assert (Hl : In ev l ->
               exists d, In ev (Eff.log (plot_column be df (colors ps) d))).
  { intros H.
    assert (H' : In ev (Eff.log (Eff.for_each ds
                                   (plot_column be df (colors ps)))))
      by now rewrite Hloop.
    apply for_each_log_In in H' as (d & _ & H'). now exists d. }
  destruct res as [[]|e].
  2:{ unfold Eff.log. cbn [fst]. rewrite in_app_iff. intuition. }
  destruct (run be (post_settings ps ++ _)) as [l2 res2] eqn:H2.
  assert (Hl2 : In ev l2 ->
                In ev (post_settings ps)
                \/ ev = EvSavefig (name ++ "." ++ image_data_type ps)%string
                                  (image_data_type ps)).
  { intros H.
    assert (H' : In ev (Eff.log (run be (post_settings ps
                  ++ [EvSavefig (name ++ "." ++ image_data_type ps)%string
                                (image_data_type ps)]))))
      by now rewrite H2.
    apply run_log_In, in_app_or in H' as [H' | [<- | []]]; auto. }
  destruct res2 as [[]|e2]; unfold Eff.log, Eff.outcome; cbn [fst snd];
    rewrite !in_app_iff; cbn [In]; intuition.
Qed.

(** X8. Whether the rendering completes or not, every series it has drawn
    has the table's first column as its x values, a column of the table as
    its y values, a colour of the colour list and a header name of the
    table as its label. *)
Theorem plot_df_series_from_table (df : DataFrame) (name : string)
        (ps : PlotSpec) (x y : Series) (color label : string) :
  In (EvPlot x y color label) (Eff.log (plot_df be (Some df) name ps)) ->
  Pandas.iloc_col df 0 = Some x
  /\ In (series_name y) (columns df)
  /\ In color (colors ps)
  /\ In label (columns df).
Proof.
  intros H. apply plot_df_log_In in H
    as [H | [[d H] | [H | [H | [H _]]]]]; try discriminate H.
  - cbn in H. intuition discriminate.
  - apply plot_column_event in H
      as (x' & y' & c' & l' & [= -> -> -> ->] & H). exact H.
  - unfold post_settings in H. destruct (legend ps); cbn in H;
      intuition discriminate.
Qed.

(** X9. The figure is closed exactly when the rendering completes: a
    rendering that raises, on a table or on [None], leaves it open. *)
Theorem figure_closed_iff_completed (df : option DataFrame) (name : string)
                                    (ps : PlotSpec) :
  In EvClose (Eff.log (plot_df be df name ps))
  <-> Eff.outcome (plot_df be df name ps) = Ok tt.
Proof.
  split.
  - intros H. apply plot_df_log_In in H
      as [H | [[d H] | [H | [H | [_ H]]]]]; try discriminate H.
    + cbn in H. intuition discriminate.
    + apply plot_column_only_plots in H as (? & ? & ? & ? & [=]).
    + unfold post_settings in H. destruct (legend ps); cbn in H;
        intuition discriminate.
    + exact H.
  - rewrite plot_df_cases.
    destruct (parse_order _) as [ds|]; [| discriminate].
    destruct (run be [_; _]) as [l0 [[]|e0]]; [| discriminate].
    destruct (Eff.for_each ds _) as [l [[]|e]]; [| discriminate].
    destruct (run be (post_settings ps ++ _)) as [l2 [[]|e2]];
      [| discriminate].
    intros _. unfold Eff.log. cbn [fst]. rewrite !in_app_iff. cbn. intuition.
Qed.

(** A rendering that raises does so with [ValueError] at the order
    string, with the exception of a pass of the plotting loop, or with an
    exception of the backend. *)
Lemma plot_df_raise_cases (df : option DataFrame) (name : string)
                          (ps : PlotSpec) (e : Py.Exc) :
  Eff.outcome (plot_df be df name ps) = Raise e ->
  (e = Py.ValueError
   /\ parse_order (list_ascii_of_string (column_order ps)) = None)
  \/ match df with
     | Some _ => e = Py.IndexError
     | None => e = Py.AttributeError
     end
  \/ exists ev, refuses be ev = Some e.
Proof.
  rewrite plot_df_cases.
  destruct (parse_order _) as [ds|]; [| intros [= <-]; now left].
  destruct (run be [_; _]) as [l0 res0] eqn:H0.
  destruct res0 as [[]|e0].
  2:{ cbn. intros [= ->]. right. right.
      match type of H0 with
      | run be ?evs = _ =>
          destruct (run_raise be evs e) as (_ & ev & _ & _ & _ & Hev);
            [now rewrite H0|]
      end. now exists ev. }
  destruct (Eff.for_each ds _) as [l res] eqn:Hloop.
  assert (Hout : Eff.outcome (Eff.for_each ds (plot_column be df (colors ps)))
                 = res) by now rewrite Hloop.
  destruct res as [[]|e'].
  2:{ cbn. intros [= ->].
      apply for_each_raise in Hout as (done & d & rest & _ & _ & Hd).
      right. exact (plot_column_raise df (colors ps) d e Hd). }
  destruct (run be (post_settings ps ++ _)) as [l2 [[]|e2]] eqn:H2;
    [discriminate|].
  cbn. intros [= ->]. right. right.
  match type of H2 with
  | run be ?evs = _ =>
      destruct (run_raise be evs e) as (_ & ev & _ & _ & _ & Hev);
        [now rewrite H2|]
  end. now exists ev.
Qed.

(** X10. The exceptions of the renderer. Of its own it raises
    [ValueError] (a character of the order string that is not a digit),
    [IndexError] (only on a table) and [AttributeError] (only on [None]);
    any other exception is one the backend raised at a call. *)
Theorem plot_df_exceptions (df : option DataFrame) (name : string)
                           (ps : PlotSpec) (e : Py.Exc) :
  Eff.outcome (plot_df be df name ps) = Raise e ->
  (e = Py.ValueError
   /\ exists c, In c (list_ascii_of_string (column_order ps))
                /\ Py.is_digit c = false)
  \/ (e = Py.IndexError /\ df <> None)
  \/ (e = Py.AttributeError /\ df = None)
  \/ exists ev, refuses be ev = Some e.
Proof.
  intros H. destruct (plot_df_raise_cases df name ps e H)
    as [[He Hp] | [He | He]].
  - left. split; [exact He|]. clear H He.
    induction (list_ascii_of_string (column_order ps)) as [|c r IH];
      [discriminate|].
    cbn [parse_order] in Hp. unfold Py.int_of_char in Hp.
    destruct (Py.is_digit c) eqn:Hc.
    + destruct (parse_order r); [discriminate|].
      destruct (IH eq_refl) as (c' & Hin & Hc'). exists c'. split;
        [now right | exact Hc'].
    + exists c. split; [now left | exact Hc].
  - right. destruct df as [d|].
    + left. split; [exact He | discriminate].
    + right. left. split; [exact He | reflexivity].
  - right. right. now right.
Qed.

(** With an empty order string the table is not looked at. *)
Lemma plot_df_empty_order (df : option DataFrame) (name : string)
                          (ps : PlotSpec) :
  column_order ps = "" ->
  accepts be ([EvRcParams (font_size ps); EvFigure (width ps) (height ps)]
              ++ post_settings ps
              ++ [EvSavefig (name ++ "." ++ image_data_type ps)%string
                            (image_data_type ps)]) = true ->
  plot_df be df name ps
  = ([EvRcParams (font_size ps); EvFigure (width ps) (height ps)]
     ++ post_settings ps
     ++ [EvSavefig (name ++ "." ++ image_data_type ps)%string
                   (image_data_type ps); EvClose],
     Ok tt).
Proof.
  intros Ho Hacc. unfold accepts in Hacc. rewrite forallb_app in Hacc.
  apply andb_true_iff in Hacc as [H0 H2].
  rewrite plot_df_cases, Ho.
  cbn [list_ascii_of_string parse_order].
  rewrite (run_accepts be _ H0), (run_accepts be _ H2).
  cbn. now rewrite <- app_assoc.
Qed.

(** With a character in the order string, rendering [None] cannot
    complete. *)
Lemma plot_df_None_ok (name : string) (ps : PlotSpec) :
  Eff.outcome (plot_df be None name ps) = Ok tt -> column_order ps = "".
Proof.
  rewrite plot_df_cases.
  destruct (column_order ps) as [|c rest]; [reflexivity|].
  cbn [list_ascii_of_string parse_order].
  destruct (Py.int_of_char c) as [d|]; [| discriminate].
  destruct (parse_order _) as [ds|]; [| discriminate].
  destruct (run be [_; _]) as [l0 [[]|e0]]; [| discriminate].
  cbn [Eff.for_each]. unfold Eff.bind. cbn. discriminate.
Qed.

(** X11. Rendering [None] completes exactly when the order string is empty
    and the backend takes every call made: the table is not looked at
    then, and an image without series is written. *)
Theorem plot_df_None_completes_iff (name : string) (ps : PlotSpec) :
  (Eff.outcome (plot_df be None name ps) = Ok tt
   <-> column_order ps = ""
       /\ accepts be
            ([EvRcParams (font_size ps); EvFigure (width ps) (height ps)]
             ++ post_settings ps
             ++ [EvSavefig (name ++ "." ++ image_data_type ps)%string
                           (image_data_type ps)]) = true)
  /\ (Eff.outcome (plot_df be None name ps) = Ok tt ->
      plot_df be None name ps
      = ([EvRcParams (font_size ps); EvFigure (width ps) (height ps)]
         ++ post_settings ps
         ++ [EvSavefig (name ++ "." ++ image_data_type ps)%string
                       (image_data_type ps); EvClose],
         Ok tt)).
Proof.
  assert (Hiff : Eff.outcome (plot_df be None name ps) = Ok tt
                 <-> column_order ps = ""
                     /\ accepts be
                          ([EvRcParams (font_size ps);
                            EvFigure (width ps) (height ps)]
                           ++ post_settings ps
                           ++ [EvSavefig
                                 (name ++ "." ++ image_data_type ps)%string
                                 (image_data_type ps)]) = true).
  { split.
    - intros Hok. pose proof (plot_df_None_ok name ps Hok) as Ho.
      split; [exact Ho|]. revert Hok. rewrite plot_df_cases, Ho.
      cbn [list_ascii_of_string parse_order Eff.for_each Eff.ret].
      destruct (run be [_; _]) as [l0 res0] eqn:H0.
      assert (Hout0 : Eff.outcome
                        (run be [EvRcParams (font_size ps);
                                 EvFigure (width ps) (height ps)]) = res0)
        by now rewrite H0.
      destruct res0 as [[]|e0]; [| discriminate].
      destruct (run be (post_settings ps ++ _)) as [l2 res2] eqn:H2.
      assert (Hout2 : Eff.outcome
                        (run be (post_settings ps
                           ++ [EvSavefig
                                 (name ++ "." ++ image_data_type ps)%string
                                 (image_data_type ps)])) = res2)
        by now rewrite H2.
      destruct res2 as [[]|e2]; [| discriminate]. intros _.
      unfold accepts. rewrite forallb_app.
      apply andb_true_iff. split.
      + exact (proj1 (run_ok be _ Hout0)).
      + exact (proj1 (run_ok be _ Hout2)).
    - intros (Ho & Hacc).
      now rewrite (plot_df_empty_order None name ps Ho Hacc). }
  split; [exact Hiff|].
  intros Hok. apply Hiff in Hok as (Ho & Hacc).
  now apply plot_df_empty_order.
Qed.

End RenderingFacts.
(* ------------------------------------------------------------------ *)
(** ** More on the batch *)

Section BatchFacts.

Variable be : Backend.
Variable fs : FileSystem.
Variable ps : PlotSpec.

(** A pass of [main]'s loop ends as the rendering of what was loaded. *)
Lemma main_body_cases (tf : string) :
  exists l o,
    load_txt fs tf = (l, Ok o)
    /\ saved_files l = []
    /\ Eff.outcome (main_body be fs ps tf)
       = Eff.outcome (plot_df be o (Py.os_path_basename tf) ps)
    /\ Eff.log (main_body be fs ps tf)
       = l ++ Eff.log (plot_df be o (Py.os_path_basename tf) ps).
Proof.
  destruct (load_txt_total fs tf) as (l & o & Hl & Hs).
  exists l, o. unfold main_body, Eff.bind. rewrite Hl.
  destruct (plot_df be o (Py.os_path_basename tf) ps) as [l' r].
  now repeat split.
Qed.

Lemma main_body_saved_raise (tf : string) (e : Py.Exc) :
  Eff.outcome (main_body be fs ps tf) = Raise e ->
  saved_files (Eff.log (main_body be fs ps tf)) = [].
Proof.
  destruct (main_body_cases tf) as (l & o & _ & Hs & -> & ->).
  intros Hr. rewrite saved_files_app, Hs.
  exact (plot_df_saved_raise be o _ ps e Hr).
Qed.

Lemma saved_files_completed (txt_files : list string) :
  (forall tf, In tf txt_files ->
              Eff.outcome (main_body be fs ps tf) = Ok tt) ->
  saved_files (flat_map (fun tf => Eff.log (main_body be fs ps tf)) txt_files)
  = map (image_name ps) txt_files.
Proof.
  induction txt_files as [|tf r IH]; intros H; [reflexivity|].
  cbn [flat_map map]. rewrite saved_files_app.
  rewrite (body_saved_ok be fs ps tf (H tf (or_introl eq_refl))).
  now rewrite (IH (fun t Ht => H t (or_intror Ht))).
Qed.

(** X12. The exceptions of the batch are those of the renderer: a failure
    to read or parse a file never leaves [main] as such. Of its own the
    batch raises [ValueError] (a character of the order string that is not
    a digit), [IndexError] (the file it stopped at did load) or
    [AttributeError] (a discovered file did not load); any other exception
    is one the backend raised at a call. *)
Theorem main_exceptions (dir : string) (e : Py.Exc) :
  Eff.outcome (main be fs dir ps) = Raise e ->
  exists tf,
    In tf (get_txt_files fs dir)
    /\ (e = Py.ValueError
        \/ (e = Py.IndexError
            /\ exists df, Eff.outcome (load_txt fs tf) = Ok (Some df))
        \/ (e = Py.AttributeError
            /\ Eff.outcome (load_txt fs tf) = Ok None)
        \/ exists ev, refuses be ev = Some e).
Proof.
  unfold main. intros H.
  apply for_each_raise in H as (done & tf & rest & Hsplit & _ & Htf).
  exists tf. split; [rewrite Hsplit; apply in_elt|].
  destruct (main_body_cases tf) as (l & o & Hl & _ & Hout & _).
  rewrite Hout in Htf. rewrite Hl. cbn [Eff.outcome snd].
  destruct (plot_df_raise_cases be o _ ps e Htf) as [[-> _] | [He | He]].
  - now left.
  - right. destruct o as [df|]; subst e.
    + left. split; [reflexivity | now exists df].
    + right. left. now split.
  - right. right. now right.
Qed.

(** X13. The batch stops at the first file whose pass raises: the files
    before it have their image, the log ends with the events of the
    failing pass, and the files after it are neither loaded nor
    rendered. *)
Theorem main_stops_at_first_failure
        (dir : string) (done rest : list string) (tf : string) (e : Py.Exc) :
  get_txt_files fs dir = done ++ tf :: rest ->
  (forall t, In t done -> Eff.outcome (main_body be fs ps t) = Ok tt) ->
  Eff.outcome (main_body be fs ps tf) = Raise e ->
  main be fs dir ps
  = (flat_map (fun t => Eff.log (main_body be fs ps t)) done
     ++ Eff.log (main_body be fs ps tf), Raise e)
  /\ saved_files (Eff.log (main be fs dir ps)) = map (image_name ps) done.
Proof.
  intros Hsplit Hdone Htf.
  assert (Hmain : main be fs dir ps
                  = (flat_map (fun t => Eff.log (main_body be fs ps t)) done
                     ++ Eff.log (main_body be fs ps tf), Raise e)).
  { unfold main. rewrite Hsplit. now apply for_each_stops. }
  split; [exact Hmain|].
  rewrite Hmain. unfold Eff.log at 1. cbn [fst].
  rewrite saved_files_app, (saved_files_completed done Hdone).
  rewrite (main_body_saved_raise tf e Htf). apply app_nil_r.
Qed.

(** X14. With an empty order string, and a backend that takes the calls
    made for every discovered file, the batch completes whatever the files
    hold: an image without series is written for every discovered file,
    those that did not load included. *)
Theorem main_with_empty_order (dir : string) :
  column_order ps = "" ->
  (forall tf, In tf (get_txt_files fs dir) ->
     accepts be ([EvRcParams (font_size ps); EvFigure (width ps) (height ps)]
                 ++ post_settings ps
                 ++ [EvSavefig (image_name ps tf) (image_data_type ps)])
     = true) ->
  Eff.outcome (main be fs dir ps) = Ok tt
  /\ saved_files (Eff.log (main be fs dir ps))
     = map (image_name ps) (get_txt_files fs dir)
  /\ plotted_names (Eff.log (main be fs dir ps)) = [].
Proof.
  intros Ho Hacc.
  assert (Hbody : forall tf, In tf (get_txt_files fs dir) ->
                             Eff.outcome (main_body be fs ps tf) = Ok tt
                             /\ plotted_names
                                  (Eff.log (main_body be fs ps tf)) = []).
  { intros tf Hin.
    destruct (main_body_cases tf) as (l & o & Hl & _ & -> & ->).
    rewrite (plot_df_empty_order be o _ ps Ho (Hacc tf Hin)).
    split; [reflexivity|]. unfold Eff.log. cbn [fst].
    rewrite !plotted_names_app, plotted_names_post_settings.
    cbn [plotted_names flat_map app]. rewrite app_nil_r.
    revert Hl. unfold load_txt.
    destruct (pd_read_csv fs tf) as [d|ex];
      [| destruct ex]; now intros [= <- _]. }
  assert (Hok : Eff.outcome (main be fs dir ps) = Ok tt).
  { unfold main. apply for_each_all_ok. intros tf Hin. now apply Hbody. }
  split; [exact Hok|]. split.
  - exact (batch_saved_ok be fs ps (get_txt_files fs dir) Hok).
  - unfold main in *. rewrite (proj2 (for_each_ok _ _ Hok)). clear Hok Hacc.
    induction (get_txt_files fs dir) as [|tf r IH]; [reflexivity|].
    cbn [flat_map]. rewrite plotted_names_app.
    rewrite (proj2 (Hbody tf (or_introl eq_refl))).
    apply IH. intros t Ht. apply Hbody. now right.
Qed.

(** X15. When the order string is not empty, a batch that completes has
    loaded every discovered file and printed nothing. *)
Theorem main_completed_all_loaded (dir : string) :
  column_order ps <> "" ->
  Eff.outcome (main be fs dir ps) = Ok tt ->
  forall tf, In tf (get_txt_files fs dir) ->
             exists df, load_txt fs tf = ([], Ok (Some df)).
Proof.
  intros Ho Hok tf Hin. unfold main in Hok.
  pose proof (proj1 (for_each_ok _ _ Hok) tf Hin) as Htf.
  destruct (main_body_cases tf) as (l & o & Hl & _ & Hout & _).
  rewrite Hout in Htf. destruct o as [df|].
  - exists df. destruct (loaded_table_shape fs tf l df Hl) as [-> _].
    exact Hl.
  - now destruct (Ho (plot_df_None_ok be _ ps Htf)).
Qed.

End BatchFacts.

(* ------------------------------------------------------------------ *)
(** ** The further properties at sample inputs *)

Lemma basename_of_joined_path_witness :
  Py.os_path_basename (Py.os_path_join "data/sub" "b.txt") = "b.txt"
  /\ image_name main_defaults (Py.os_path_join "data/sub" "b.txt")
     = "b.txt.svg".
Proof.
  exact (basename_of_joined_path main_defaults "data/sub" "b.txt" eq_refl).
Defined.

Lemma get_txt_files_all_txt_witness :
  In "data/sub/b.txt" (get_txt_files Sample.fs_nested "data")
  /\ Py.endswith "data/sub/b.txt" ".txt" = true.
Proof.
  assert (H : In "data/sub/b.txt" (get_txt_files Sample.fs_nested "data")).
  { vm_compute. right. left. reflexivity. }
  split; [exact H|].
  exact (get_txt_files_all_txt Sample.fs_nested "data" "data/sub/b.txt" H).
Defined.

Lemma get_txt_files_top_down_witness :
  get_txt_files Sample.fs_nested "data"
  = ["data/a.txt"] ++ ["data/sub/b.txt"] ++ [] ++ [].
Proof.
  rewrite (get_txt_files_top_down Sample.fs_nested "data"
             ["a.txt"; "notes.md"]
             [("sub", Dir ["b.txt"; "c.TXT"] []); ("locked", Unreadable)]
             eq_refl).
  vm_compute. reflexivity.
Defined.

Lemma loaded_table_invariant_witness :
  load_txt Sample.fs_blank "data/blank.txt" = ([], Ok (Some Sample.df))
  /\ columns Sample.df <> []
  /\ forall r, In r (rows Sample.df) ->
       List.length r = List.length (columns Sample.df)
       /\ forallb Pandas.notna r = true.
Proof.
  assert (H : load_txt Sample.fs_blank "data/blank.txt"
              = ([], Ok (Some Sample.df))) by (vm_compute; reflexivity).
  split; [exact H|].
  exact (proj2 (loaded_table_invariant Sample.fs_blank "data/blank.txt"
                  [] Sample.df H)).
Defined.

Lemma load_txt_without_header_witness :
  load_txt Sample.fs_title_only "data/title.txt"
  = ([EvPrint (MsgLoadError Py.EmptyDataError)], Ok None)
  /\ file_lines Sample.text_cr = ["title"; "A" ++ Sample.ht ++ "B";
                                  "1" ++ Sample.ht ++ "2"; ""]%string
  /\ load_txt Sample.fs_texts "data/cr.txt"
     = ([], Ok (Some {| columns := ["A"; "B"];
                        rows := [[Some "1"; Some "2"]] |})).
Proof.
  split; [| split; vm_compute; reflexivity].
  exact (load_txt_without_header Sample.fs_title_only "data/title.txt"
           ("profile 1" ++ Sample.nl)%string eq_refl eq_refl).
Defined.

Lemma plot_df_completes_iff_witness :
  Eff.outcome (plot_df Sample.strict (Some Sample.df) "sample.txt"
                       main_defaults) = Ok tt
  /\ Eff.outcome (plot_df Sample.strict (Some Sample.df) "sample.txt"
                          (Sample.spec_order "3" ["red"])) <> Ok tt
  /\ Eff.outcome (plot_df Sample.strict (Some Sample.df) "sample.txt"
                          (Sample.spec_order "1" ["notacolor"])) <> Ok tt.
Proof.
  split; [| split].
  - apply (proj2 (plot_df_completes_iff Sample.strict Sample.df
                    "sample.txt" main_defaults)).
    exists [3; 1; 2]%Z.
    split; [reflexivity|]. split; [reflexivity|]. split; [| reflexivity].
    intros d [<- | [<- | [<- | []]]] _; eexists;
      (split; [vm_compute; reflexivity | reflexivity]).
  - intros H.
    apply (proj1 (plot_df_completes_iff Sample.strict Sample.df
                    "sample.txt" (Sample.spec_order "3" ["red"]))) in H
      as (ds & Hp & _ & Hall & _).
    vm_compute in Hp. injection Hp as <-.
    destruct (Hall 3%Z (or_introl eq_refl) eq_refl) as (ev & Hcall & _).
    vm_compute in Hcall. discriminate Hcall.
  - intros H.
    apply (proj1 (plot_df_completes_iff Sample.strict Sample.df
                    "sample.txt" (Sample.spec_order "1" ["notacolor"]))) in H
      as (ds & Hp & _ & Hall & _).
    vm_compute in Hp. injection Hp as <-.
    destruct (Hall 1%Z (or_introl eq_refl) eq_refl) as (ev & Hcall & Hev).
    vm_compute in Hcall. injection Hcall as <-.
    vm_compute in Hev. discriminate Hev.
Defined.

Lemma plot_df_draw_order_witness :
  map Some
      (plotted_names
         (Eff.log (plot_df Sample.permissive (Some Sample.df) "sample.txt"
                           (Sample.spec_order "3912" ["red"; "green"; "blue"]))))
  = [Some "C"; Some "A"; Some "B"].
Proof.
  rewrite (plot_df_draw_order Sample.permissive Sample.df "sample.txt"
             (Sample.spec_order "3912" ["red"; "green"; "blue"])
             [3; 9; 1; 2]%Z eq_refl eq_refl).
  vm_compute. reflexivity.
Defined.

Lemma plot_df_series_from_table_witness :
  Pandas.iloc_col Sample.df 0
  = Some (mkSeries "Distance" [Some "0.0"; Some "0.5"])
  /\ In "C" (columns Sample.df)
  /\ In "blue" ["red"; "green"; "blue"]
  /\ In "B" (columns Sample.df).
Proof.
  apply (plot_df_series_from_table Sample.permissive Sample.df "sample.txt"
           main_defaults
           (mkSeries "Distance" [Some "0.0"; Some "0.5"])
           (mkSeries "C" [Some "30"; Some "31"]) "blue" "B").
  vm_compute. right. right. left. reflexivity.
Defined.

Lemma figure_closed_iff_completed_witness :
  In (EvFigure 10 6)
     (Eff.log (plot_df Sample.permissive None "bad.txt" main_defaults))
  /\ ~ In EvClose
         (Eff.log (plot_df Sample.permissive None "bad.txt" main_defaults)).
Proof.
  split; [vm_compute; right; left; reflexivity|].
  intros H.
  apply (proj1 (figure_closed_iff_completed Sample.permissive None
                  "bad.txt" main_defaults)) in H.
  vm_compute in H. discriminate H.
Defined.

Lemma plot_df_exceptions_witness :
  ((Py.IndexError = Py.ValueError
    /\ exists c, In c (list_ascii_of_string "3")
                 /\ Py.is_digit c = false)
   \/ (Py.IndexError = Py.IndexError /\ Some Sample.df <> None)
   \/ (Py.IndexError = Py.AttributeError /\ Some Sample.df = None)
   \/ exists ev, refuses Sample.strict ev = Some Py.IndexError)
  /\ Eff.outcome (plot_df Sample.strict (Some Sample.df) "sample.txt"
                          (Sample.spec_order "1" ["notacolor"]))
     = Raise Py.ValueError
  /\ Py.is_digit "1" = true.
Proof.
  split; [| split; reflexivity].
  exact (plot_df_exceptions Sample.strict (Some Sample.df) "sample.txt"
           (Sample.spec_order "3" ["red"]) Py.IndexError eq_refl).
Defined.

Lemma plot_df_None_completes_iff_witness :
  Eff.outcome (plot_df Sample.strict None "bad.txt"
                       (Sample.spec_order "" ["red"])) = Ok tt
  /\ Eff.outcome (plot_df Sample.strict None "bad.txt" main_defaults)
     <> Ok tt
  /\ Eff.outcome
       (plot_df Sample.strict None "bad.txt"
          {| image_data_type := "svg"; width := -1; height := 2;
             x_label := None; y_label := None; font_size := 9;
             colors := ["red"]; column_order := ""; legend := false |})
     <> Ok tt.
Proof.
  split; [| split].
  - apply (proj2 (proj1 (plot_df_None_completes_iff Sample.strict
                           "bad.txt" (Sample.spec_order "" ["red"])))).
    split; reflexivity.
  - intros H.
    apply (proj1 (proj1 (plot_df_None_completes_iff Sample.strict
                           "bad.txt" main_defaults))) in H as [Ho _].
    discriminate Ho.
  - intros H.
    apply (proj1 (proj1 (plot_df_None_completes_iff Sample.strict
                           "bad.txt" _))) in H as [_ Hacc].
    vm_compute in Hacc. discriminate Hacc.
Defined.

Lemma main_exceptions_witness :
  exists tf,
    In tf (get_txt_files Sample.fs_bad_good "data")
    /\ (Py.AttributeError = Py.ValueError
        \/ (Py.AttributeError = Py.IndexError
            /\ exists df, Eff.outcome (load_txt Sample.fs_bad_good tf)
                          = Ok (Some df))
        \/ (Py.AttributeError = Py.AttributeError
            /\ Eff.outcome (load_txt Sample.fs_bad_good tf) = Ok None)
        \/ exists ev, refuses Sample.strict ev = Some Py.AttributeError).
Proof.
  exact (main_exceptions Sample.strict Sample.fs_bad_good main_defaults
           "data" Py.AttributeError eq_refl).
Defined.

Lemma main_stops_at_first_failure_witness :
  Eff.outcome (main Sample.permissive Sample.fs_good_bad "data" main_defaults)
  = Raise Py.AttributeError
  /\ saved_files
       (Eff.log (main Sample.permissive Sample.fs_good_bad "data"
                      main_defaults))
     = ["good.txt.svg"].
Proof.
  destruct (main_stops_at_first_failure Sample.permissive Sample.fs_good_bad
              main_defaults "data" ["data/good.txt"] [] "data/bad.txt"
              Py.AttributeError eq_refl) as [Hmain Hsaved].
  - intros t [<- | []]. vm_compute. reflexivity.
  - vm_compute. reflexivity.
  - split; [now rewrite Hmain | exact Hsaved].
Defined.

Lemma main_with_empty_order_witness :
  Eff.outcome (main Sample.strict Sample.fs_bad_good "data"
                    (Sample.spec_order "" ["red"])) = Ok tt
  /\ saved_files
       (Eff.log (main Sample.strict Sample.fs_bad_good "data"
                      (Sample.spec_order "" ["red"])))
     = ["bad.txt.svg"; "good.txt.svg"].
Proof.
  destruct (main_with_empty_order Sample.strict Sample.fs_bad_good
              (Sample.spec_order "" ["red"]) "data" eq_refl)
    as (Hok & Hsaved & _).
  - intros tf [<- | [<- | []]]; reflexivity.
  - split; [exact Hok | exact Hsaved].
Defined.

Lemma main_completed_all_loaded_witness :
  exists df, load_txt Sample.fs_one "data/sample.txt" = ([], Ok (Some df)).
Proof.
  apply (main_completed_all_loaded Sample.permissive Sample.fs_one
           main_defaults "data").
  - discriminate.
  - vm_compute. reflexivity.
  - vm_compute. left. reflexivity.
Defined.

(* ------------------------------------------------------------------ *)
(** ** The settings across a batch *)

Section SettingsFacts.

Variable be : Backend.

Lemma plot_column_follows (df : option DataFrame) (ps : PlotSpec)
                          (name : string) (d : Z) (ev : Event) :
  In ev (Eff.log (plot_column be df (colors ps) d)) ->
  event_follows ps name ev.
Proof.
  destruct df as [df|]; [| intros []].
  intros H. apply plot_column_event in H
    as (x & y & c & l & -> & _ & _ & Hc & _). exact Hc.
Qed.

Lemma plot_df_follows (df : option DataFrame) (ps : PlotSpec)
                      (name : string) (ev : Event) :
  In ev (Eff.log (plot_df be df name ps)) -> event_follows ps name ev.
Proof.
  intros H. apply plot_df_log_In in H
    as [H | [[d H] | [H | [-> | [-> _]]]]].
  - destruct H as [<- | [<- | []]]; cbn; auto.
  - exact (plot_column_follows df ps name d ev H).
  - revert H. unfold post_settings.
    destruct (legend ps) eqn:Hleg; cbn [app In];
      intros H; repeat (destruct H as [<- | H]; [cbn; auto|]); destruct H.
  - cbn. auto.
  - cbn. auto.
Qed.

(** What loading has printed is the message of its failure. *)
Lemma load_txt_log (fs : FileSystem) (tf : string) (l : list Event)
                   (o : option DataFrame) (ev : Event) :
  load_txt fs tf = (l, Ok o) -> In ev l -> load_txt fs tf = ([ev], Ok None).
Proof.
  unfold load_txt. destruct (pd_read_csv fs tf) as [d|e].
  - intros [= <- _] [].
  - destruct e; cbn; intros [= <- <-] [<- | []]; reflexivity.
Qed.

(** X16. Every event of a batch belongs to a discovered file: it is the
    message of that file's failure to load, or a call of the renderer with
    the batch's own settings: the same font size, figure size, axis labels
    and format for every file, a legend only when asked for, colours from
    the colour list only, and an image named after the file. *)
Theorem main_events_follow_settings
        (fs : FileSystem) (dir : string) (ps : PlotSpec) (ev : Event) :
  In ev (Eff.log (main be fs dir ps)) ->
  exists tf,
    In tf (get_txt_files fs dir)
    /\ (load_txt fs tf = ([ev], Ok None)
        \/ event_follows ps (Py.os_path_basename tf) ev).
Proof.
  unfold main. intros H.
  apply for_each_log_In in H as (tf & Htf & H).
  exists tf. split; [exact Htf|].
  destruct (main_body_cases be fs ps tf) as (l & o & Hl & _ & _ & Hlog).
  rewrite Hlog in H. apply in_app_or in H as [H | H].
  - left. exact (load_txt_log fs tf l o ev Hl H).
  - right. exact (plot_df_follows o ps _ ev H).
Qed.

(** A digit the guard lets through with a colour subscript past the end of
    the list: the rendering raises. *)
Lemma plot_df_short_colors (df : DataFrame) (name : string) (ps : PlotSpec)
                           (c : ascii) (d : Z) :
  In c (list_ascii_of_string (column_order ps)) ->
  Py.int_of_char c = Some d ->
  (d < ncols df)%Z ->
  (Z.of_nat (List.length (colors ps)) < d)%Z ->
  exists e, Eff.outcome (plot_df be (Some df) name ps) = Raise e.
Proof.
  intros Hin Hc Hd Hlen.
  pose proof (int_of_char_range c d Hc) as Hr.
  rewrite plot_df_cases.
  destruct (parse_order _) as [ds|] eqn:Hp; [| now exists Py.ValueError].
  destruct (run be [_; _]) as [l0 [[]|e0]]; [| now exists e0].
  assert (Hcol : plot_column be (Some df) (colors ps) d
                 = ([], Raise Py.IndexError)).
  { destruct (plot_column_guarded be df (colors ps) d ltac:(lia))
      as (x & y & label & _ & _ & _ & ->).
    now rewrite (index_past_end (colors ps) (d - 1)) by lia. }
  destruct (for_each_plot_column_raises be df (colors ps) ds d
              (parse_order_In _ _ c d Hp Hin Hc) Hcol) as [e He].
  destruct (Eff.for_each ds _) as [l [[]|e']]; [discriminate|].
  now exists e'.
Qed.

(** X17. The command line cannot change the colour list, which has three
    entries: when the first discovered file loads as a table that has the
    column of a digit of [--order] from [4] upwards, the script ends in an
    exception without an image. *)
Theorem script_order_beyond_three_colours
        (fs : FileSystem) (args : Namespace) (tf : string)
        (rest : list string) (l : list Event) (df : DataFrame)
        (c : ascii) (d : Z) :
  get_txt_files fs (arg_input_dir args) = tf :: rest ->
  load_txt fs tf = (l, Ok (Some df)) ->
  In c (list_ascii_of_string (arg_order args)) ->
  Py.int_of_char c = Some d ->
  (4 <= d < ncols df)%Z ->
  (exists e, Eff.outcome (script be fs args) = Raise e)
  /\ saved_files (Eff.log (script be fs args)) = [].
Proof.
  intros Hfiles Hload Hin Hc Hd.
  set (ps := {| image_data_type := image_data_type main_defaults;
                width := arg_width args;
                height := arg_height args;
                x_label := x_label main_defaults;
                y_label := y_label main_defaults;
                font_size := arg_font_size args;
                colors := colors main_defaults;
                column_order := arg_order args;
                legend := arg_legend args |}).
  change (script be fs args) with (main be fs (arg_input_dir args) ps).
  destruct (plot_df_short_colors df (Py.os_path_basename tf) ps c d)
    as [e He]; [exact Hin | exact Hc | lia | cbn; lia |].
  assert (Hbody : Eff.outcome (main_body be fs ps tf) = Raise e).
  { destruct (main_body_cases be fs ps tf) as (l' & o & Hl & _ & -> & _).
    rewrite Hload in Hl. injection Hl as _ <-. exact He. }
  assert (Hmain : main be fs (arg_input_dir args) ps
                  = (Eff.log (main_body be fs ps tf), Raise e)).
  { unfold main. rewrite Hfiles.
    exact (for_each_stops (main_body be fs ps) [] rest tf e
             (fun y (H : In y []) => match H with end) Hbody). }
  rewrite Hmain. split; [now exists e|].
  exact (main_body_saved_raise be fs ps tf e Hbody).
Qed.

End SettingsFacts.

Lemma main_events_follow_settings_witness :
  exists tf,
    In tf (get_txt_files Sample.fs_one "data")
    /\ (load_txt Sample.fs_one tf
        = ([EvSavefig "sample.txt.svg" "svg"], Ok None)
        \/ event_follows main_defaults (Py.os_path_basename tf)
                         (EvSavefig "sample.txt.svg" "svg")).
Proof.
  apply (main_events_follow_settings Sample.permissive Sample.fs_one "data"
           main_defaults (EvSavefig "sample.txt.svg" "svg")).
  vm_compute. do 8 right. left. reflexivity.
Defined.

Lemma script_order_beyond_three_colours_witness :
  (exists e,
      Eff.outcome
        (script Sample.permissive Sample.fs_wide
                (mkNamespace "data" None "4" 4 2 9 false None None))
      = Raise e)
  /\ saved_files
       (Eff.log
          (script Sample.permissive Sample.fs_wide
                  (mkNamespace "data" None "4" 4 2 9 false None None)))
     = [].
Proof.
  destruct (load_txt Sample.fs_wide "data/wide.txt") as [l [[df|]|e]] eqn:Hl;
    try (vm_compute in Hl; discriminate Hl).
  apply (script_order_beyond_three_colours Sample.permissive Sample.fs_wide
           (mkNamespace "data" None "4" 4 2 9 false None None)
           "data/wide.txt" [] l df "4"%char 4%Z).
  - reflexivity.
  - exact Hl.
  - cbn. auto.
  - reflexivity.
  - vm_compute in Hl. injection Hl as _ <-. vm_compute. split; discriminate
      || reflexivity.
Defined.

